(** * The note browser of streamlit_app.py

    A shallow embedding of the four cached functions of
    [src/streamlit_app.py] ([fetch_dataframe], [list_folder], [build_tree],
    [fetch_note_content]) together with the Python and Streamlit machinery
    they rely on: dynamically typed JSON values, exceptions, [st.error],
    [st.cache_data] and the GitHub contents API reached through
    [requests.get]. *)

From stdpp Require Import gmap strings list fin_maps pretty relations.
From Stdlib Require Import QArith.
Close Scope Q_scope.

Set Warnings "-register-all".
Open Scope string_scope.
Open Scope list_scope.

(** ** Python values

    Everything the functions handle is either a [str] or a value decoded from
    JSON.  A [str] is a Rocq [string], one character per code point.  A JSON
    number keeps its literal: the code never computes with one. *)

Inductive value : Type :=
| VNone
| VBool (b : bool)
| VNum (lit : string)
| VStr (s : string)
| VList (items : list value)
| VDict (fields : list (string * value)).

Inductive exn_kind : Type :=
| TypeError
| KeyError
| AttributeError
| JSONDecodeError
| BinasciiError
| UnicodeDecodeError
| PandasError
| ValueError.

Record exn : Type := Exn { exn_type : exn_kind; exn_str : string }.

Inductive result (A : Type) : Type :=
| Return (a : A)
| Raised (e : exn).
Arguments Return {A} a.
Arguments Raised {A} e.

(** Whether the literal of a JSON number makes an [int]: digits and a sign
    only.  A fraction, an exponent, [NaN] and [Infinity] make a [float]. *)
Definition is_int_literal (lit : string) : bool :=
  forallb (fun c => let n := Ascii.nat_of_ascii c in
                    (Nat.leb 48 n && Nat.leb n 57) || Nat.eqb n 45)
          (String.list_ascii_of_string lit).

(** [type(v).__name__] *)
Definition type_name (v : value) : string :=
  match v with
  | VNone => "NoneType"
  | VBool _ => "bool"
  | VNum lit => if is_int_literal lit then "int" else "float"
  | VStr _ => "str"
  | VList _ => "list"
  | VDict _ => "dict"
  end.

(** [d[k]] on the association list behind a dict. *)
Fixpoint dict_get (k : string) (fields : list (string * value)) : option value :=
  match fields with
  | [] => None
  | (k', v) :: rest => if String.eqb k' k then Some v else dict_get k rest
  end.

(** [v == s] for a string literal [s]. *)
Definition py_eq_str (v : value) (s : string) : bool :=
  match v with
  | VStr t => String.eqb t s
  | _ => false
  end.

(** [sub in s] on two strings. *)
Fixpoint str_contains (s sub : string) : bool :=
  String.prefix sub s ||
  match s with
  | EmptyString => false
  | String _ rest => str_contains rest sub
  end.

(** [s.endswith(suffix)]: some tail of [s] is [suffix]. *)
Fixpoint str_endswith (s suffix : string) : bool :=
  String.eqb s suffix ||
  match s with
  | EmptyString => false
  | String _ rest => str_endswith rest suffix
  end.

(** [key in container]. *)
Definition py_contains (container : value) (key : string) : result bool :=
  match container with
  | VDict fields => Return (bool_decide (is_Some (dict_get key fields)))
  | VList items => Return (existsb (fun x => py_eq_str x key) items)
  | VStr s => Return (str_contains s key)
  | _ => Raised (Exn TypeError
                   ("argument of type '" +:+ type_name container +:+ "' is not iterable"))
  end.

(** [v[key]] with a string key. *)
Definition py_getitem (v : value) (key : string) : result value :=
  match v with
  | VDict fields =>
      match dict_get key fields with
      | Some x => Return x
      | None => Raised (Exn KeyError ("'" +:+ key +:+ "'"))
      end
  | VList _ => Raised (Exn TypeError "list indices must be integers or slices, not str")
  | VStr _ => Raised (Exn TypeError "string indices must be integers, not 'str'")
  | _ => Raised (Exn TypeError ("'" +:+ type_name v +:+ "' object is not subscriptable"))
  end.

(** The elements a [for] loop over [v] visits. *)
Definition py_iter (v : value) : result (list value) :=
  match v with
  | VList items => Return items
  | VDict fields => Return (map (fun kv => VStr (fst kv)) fields)
  | VStr s => Return (map (fun c => VStr (String c EmptyString)) (String.list_ascii_of_string s))
  | _ => Raised (Exn TypeError ("'" +:+ type_name v +:+ "' object is not iterable"))
  end.

(** [v.endswith(suffix)]. *)
Definition py_endswith (v : value) (suffix : string) : result bool :=
  match v with
  | VStr s => Return (str_endswith s suffix)
  | _ => Raised (Exn AttributeError
                   ("'" +:+ type_name v +:+ "' object has no attribute 'endswith'"))
  end.

(** ** The world outside the script *)

(** What [requests.get] hands back: the status code and what
    [response.json()] does with the body. *)
Record Response : Type := {
  status_code : Z;
  json : result value
}.

(** [pd.DataFrame]: column labels and rows of cells. *)
Record DataFrame : Type := {
  df_columns : list string;
  df_rows : list (list string)
}.

(** [pd.DataFrame()] *)
Definition empty_DataFrame : DataFrame := {| df_columns := []; df_rows := [] |}.

(** The secrets read at the top of the script, the library functions the
    script calls, and the remote API.  [REPO] is the value in force when a
    function runs (the script rebinds it on line 172).  [github] answers a
    request from the URLs requested before it, the URL and the
    [Authorization] header, so answers may change over time; every request
    gets an answer, a connection that fails is outside the model. *)
Record Env : Type := {
  USERNAME : string;
  REPO : string;
  BRANCH : string;
  TOKEN : string;
  quote : string -> string;
  b64decode : string -> result (list Byte.byte);
  decode_utf8 : list Byte.byte -> result string;
  read_csv : string -> result DataFrame;
  read_json : string -> result DataFrame;
  github : list string -> string -> string -> Response
}.

(** The process state: the requests sent so far (newest first), the messages
    shown by [st.error] while function bodies ran (newest first) and one
    [st.cache_data] store per decorated function. *)
Record World : Type := {
  requests : list string;
  errors : list string;
  cache_fetch_dataframe : gmap string DataFrame;
  cache_list_folder : gmap string value;
  cache_build_tree : gmap string (list value);
  cache_fetch_note_content : gmap string string
}.

Definition startup : World :=
  {| requests := []; errors := [];
     cache_fetch_dataframe := ∅; cache_list_folder := ∅;
     cache_build_tree := ∅; cache_fetch_note_content := ∅ |}.

Definition set_cache_fetch_dataframe (c : gmap string DataFrame) (w : World) : World :=
  {| requests := requests w; errors := errors w;
     cache_fetch_dataframe := c; cache_list_folder := cache_list_folder w;
     cache_build_tree := cache_build_tree w;
     cache_fetch_note_content := cache_fetch_note_content w |}.

Definition set_cache_list_folder (c : gmap string value) (w : World) : World :=
  {| requests := requests w; errors := errors w;
     cache_fetch_dataframe := cache_fetch_dataframe w; cache_list_folder := c;
     cache_build_tree := cache_build_tree w;
     cache_fetch_note_content := cache_fetch_note_content w |}.

Definition set_cache_build_tree (c : gmap string (list value)) (w : World) : World :=
  {| requests := requests w; errors := errors w;
     cache_fetch_dataframe := cache_fetch_dataframe w;
     cache_list_folder := cache_list_folder w;
     cache_build_tree := c;
     cache_fetch_note_content := cache_fetch_note_content w |}.

Definition set_cache_fetch_note_content (c : gmap string string) (w : World) : World :=
  {| requests := requests w; errors := errors w;
     cache_fetch_dataframe := cache_fetch_dataframe w;
     cache_list_folder := cache_list_folder w;
     cache_build_tree := cache_build_tree w;
     cache_fetch_note_content := c |}.

(** ** Running Python code

    A computation takes the world and either finishes, with a value or a
    raised exception and the world it leaves behind, or has no outcome
    ([None]): the recursion budget of [build_tree] ran out. *)

Definition M (A : Type) : Type := World -> option (result A * World).

Definition ret {A} (a : A) : M A := fun w => Some (Return a, w).

Definition raise {A} (e : exn) : M A := fun w => Some (Raised e, w).

Definition bind {A B} (m : M A) (k : A -> M B) : M B :=
  fun w =>
    match m w with
    | Some (Return a, w') => k a w'
    | Some (Raised e, w') => Some (Raised e, w')
    | None => None
    end.

Definition lift {A} (r : result A) : M A := fun w => Some (r, w).

Definition out_of_fuel {A} : M A := fun _ => None.

(** [try: body  except Exception as e: handler e] *)
Definition try_except {A} (body : M A) (handler : exn -> M A) : M A :=
  fun w =>
    match body w with
    | Some (Raised e, w') => handler e w'
    | other => other
    end.

Declare Scope py_scope.
Delimit Scope py_scope with py.
Notation "x <~ m ;; k" := (bind m (fun x => k))
  (at level 100, m at next level, right associativity) : py_scope.
Notation "m ;;; k" := (bind m (fun _ => k))
  (at level 100, right associativity) : py_scope.
Open Scope py_scope.

(** The [for] loop of [build_tree]: [step] receives the list built so far
    and the next element. *)
Fixpoint for_each {A B} (step : B -> A -> M B) (items : list A) (acc : B) : M B :=
  match items with
  | [] => ret acc
  | item :: rest => acc' <~ step acc item ;; for_each step rest acc'
  end.

(** [st.error(msg)] *)
Definition st_error (msg : string) : M unit :=
  fun w =>
    Some (Return tt,
          {| requests := requests w; errors := msg :: errors w;
             cache_fetch_dataframe := cache_fetch_dataframe w;
             cache_list_folder := cache_list_folder w;
             cache_build_tree := cache_build_tree w;
             cache_fetch_note_content := cache_fetch_note_content w |}).

(** [@st.cache_data]: a call whose argument has a stored result returns it
    without running the body; otherwise the body runs and, when it returns
    (not when it raises), its result is stored under the argument.  Results
    are only ever stored under [str] arguments: before a decorated function
    can return, its argument has gone through [quote], in its own body or in
    [list_folder], and [quote] raises on anything else. *)
Definition cache_data {A} (get : World -> gmap string A)
    (set : gmap string A -> World -> World) (arg : value) (body : M A) : M A :=
  match arg with
  | VStr key =>
      fun w =>
        match get w !! key with
        | Some v => Some (Return v, w)
        | None =>
            match body w with
            | Some (Return v, w') => Some (Return v, set (<[key := v]> (get w')) w')
            | other => other
            end
        end
  | _ => body
  end.

Section App.

Variable env : Env.

(** [HEADERS] *)
Definition HEADERS : string := "token " +:+ TOKEN env.

Definition api_url (quoted_path : string) : string :=
  "https://api.github.com/repos/" +:+ USERNAME env +:+ "/" +:+ REPO env
    +:+ "/contents/" +:+ quoted_path +:+ "?ref=" +:+ BRANCH env.

(** [requests.get(api_url, headers=HEADERS)] *)
Definition requests_get (url : string) : M Response :=
  fun w =>
    Some (Return (github env (requests w) url HEADERS),
          {| requests := url :: requests w; errors := errors w;
             cache_fetch_dataframe := cache_fetch_dataframe w;
             cache_list_folder := cache_list_folder w;
             cache_build_tree := cache_build_tree w;
             cache_fetch_note_content := cache_fetch_note_content w |}).

(** [base64.b64decode(v).decode("utf-8")] *)
Definition b64decode_utf8 (v : value) : result string :=
  match v with
  | VStr s =>
      match b64decode env s with
      | Return bytes => decode_utf8 env bytes
      | Raised e => Raised e
      end
  | _ => Raised (Exn TypeError
                   ("argument should be a bytes-like object or ASCII string, not '"
                      +:+ type_name v +:+ "'"))
  end.

(** *** [fetch_dataframe] (lines 17-48) *)

Definition fetch_dataframe_body (file_path : string) : M DataFrame :=
  response <~ requests_get (api_url (quote env file_path)) ;;
  if negb (status_code response =? 200)%Z then
    st_error ("Failed to fetch " +:+ file_path +:+ ": " +:+ pretty (status_code response)) ;;;
    ret empty_DataFrame
  else
    match json response with
    | Raised e =>
        st_error ("Failed to parse JSON from " +:+ file_path +:+ ": " +:+ exn_str e) ;;;
        ret empty_DataFrame
    | Return data =>
        has_content <~ lift (py_contains data "content") ;;
        if negb has_content then
          st_error ("No content field found in " +:+ file_path) ;;;
          ret empty_DataFrame
        else
          try_except
            (content <~ lift (py_getitem data "content") ;;
             decoded <~ lift (b64decode_utf8 content) ;;
             if str_endswith file_path ".csv" then lift (read_csv env decoded)
             else if str_endswith file_path ".json" then lift (read_json env decoded)
             else
               st_error ("Unsupported file type: " +:+ file_path) ;;;
               ret empty_DataFrame)
            (fun e =>
               st_error ("Error decoding " +:+ file_path +:+ ": " +:+ exn_str e) ;;;
               ret empty_DataFrame)
    end.

Definition fetch_dataframe (file_path : string) : M DataFrame :=
  cache_data cache_fetch_dataframe set_cache_fetch_dataframe (VStr file_path)
    (fetch_dataframe_body file_path).

(** *** [list_folder] (lines 137-144) *)

(** [quote(path)] is evaluated first and accepts only a [str] (or [bytes],
    which JSON never yields). *)
Definition list_folder_body (path : value) : M value :=
  match path with
  | VStr p =>
      response <~ requests_get (api_url (quote env p)) ;;
      if negb (status_code response =? 200)%Z then
        st_error ("Failed to fetch " +:+ p +:+ ": " +:+ pretty (status_code response)) ;;;
        ret (VList [])
      else lift (json response)
  | _ => raise (Exn TypeError "quote_from_bytes() expected bytes")
  end.

Definition list_folder (path : value) : M value :=
  cache_data cache_list_folder set_cache_list_folder path (list_folder_body path).

(** *** [build_tree] (lines 146-158) *)

Definition folder_node (item_path name : value) (children : list value) : value :=
  VDict [("id", item_path); ("name", name); ("children", VList children)].

Definition note_node (item_path name : value) : value :=
  VDict [("id", item_path); ("name", name); ("path", item_path)].

(** One turn of the loop; [recurse] is the recursive call of [build_tree]. *)
Definition build_tree_item (recurse : value -> M (list value))
    (tree : list value) (item : value) : M (list value) :=
  name <~ lift (py_getitem item "name") ;;
  if py_eq_str name ".obsidian" then ret tree
  else
    item_path <~ lift (py_getitem item "path") ;;
    type <~ lift (py_getitem item "type") ;;
    if py_eq_str type "dir" then
      name' <~ lift (py_getitem item "name") ;;
      children <~ recurse item_path ;;
      ret (tree ++ [folder_node item_path name' children])
    else
      type' <~ lift (py_getitem item "type") ;;
      if py_eq_str type' "file" then
      name' <~ lift (py_getitem item "name") ;;
      is_note <~ lift (py_endswith name' ".md") ;;
      if is_note then
        name'' <~ lift (py_getitem item "name") ;;
        ret (tree ++ [note_node item_path name''])
      else ret tree
    else ret tree.

Fixpoint build_tree (fuel : nat) (path : value) : M (list value) :=
  match fuel with
  | O => out_of_fuel
  | S fuel' =>
      cache_data cache_build_tree set_cache_build_tree path
        (contents <~ list_folder path ;;
         items <~ lift (py_iter contents) ;;
         for_each (build_tree_item (build_tree fuel')) items [])
  end.

(** *** [fetch_note_content] (lines 160-170) *)

Definition fetch_note_content_body (file_path : string) : M string :=
  http_response <~ requests_get (api_url (quote env file_path)) ;;
  response <~ lift (json http_response) ;;
  has_content <~ lift (py_contains response "content") ;;
  if negb has_content then ret "Could not fetch note content."
  else
    try_except
      (content <~ lift (py_getitem response "content") ;;
       lift (b64decode_utf8 content))
      (fun e => ret ("Error decoding file: " +:+ exn_str e)).

Definition fetch_note_content (file_path : string) : M string :=
  cache_data cache_fetch_note_content set_cache_fetch_note_content (VStr file_path)
    (fetch_note_content_body file_path).

End App.

(** ** What a listing turns into

    [tree_of m items t]: walking [items] the way the loop of [build_tree]
    does, with [m] giving the listing of every folder met on the way,
    produces the nodes [t]. *)

Inductive tree_of (m : gmap string value) : list value -> list value -> Prop :=
| tree_of_nil : tree_of m [] []
| tree_of_reserved item name items t :
    py_getitem item "name" = Return name ->
    py_eq_str name ".obsidian" = true ->
    tree_of m items t ->
    tree_of m (item :: items) t
| tree_of_dir item name p type contents sub children items t :
    py_getitem item "name" = Return name ->
    py_eq_str name ".obsidian" = false ->
    py_getitem item "path" = Return (VStr p) ->
    py_getitem item "type" = Return type ->
    py_eq_str type "dir" = true ->
    m !! p = Some contents ->
    py_iter contents = Return sub ->
    tree_of m sub children ->
    tree_of m items t ->
    tree_of m (item :: items) (folder_node (VStr p) name children :: t)
| tree_of_note item name item_path type items t :
    py_getitem item "name" = Return name ->
    py_eq_str name ".obsidian" = false ->
    py_getitem item "path" = Return item_path ->
    py_getitem item "type" = Return type ->
    py_eq_str type "dir" = false ->
    py_eq_str type "file" = true ->
    py_endswith name ".md" = Return true ->
    tree_of m items t ->
    tree_of m (item :: items) (note_node item_path name :: t)
| tree_of_dropped item name item_path type items t :
    py_getitem item "name" = Return name ->
    py_eq_str name ".obsidian" = false ->
    py_getitem item "path" = Return item_path ->
    py_getitem item "type" = Return type ->
    py_eq_str type "dir" = false ->
    py_eq_str type "file" = false \/ py_endswith name ".md" = Return false ->
    tree_of m items t ->
    tree_of m (item :: items) t.

(** The tree for the folder at [p]. *)
Definition tree_for (m : gmap string value) (p : string) (t : list value) : Prop :=
  exists contents items,
    m !! p = Some contents /\ py_iter contents = Return items /\ tree_of m items t.

(** [n] is a node of the tree [t], at any depth. *)
Inductive node_in (n : value) : list value -> Prop :=
| node_here t : In n t -> node_in n t
| node_below t fields children :
    In (VDict fields) t ->
    dict_get "children" fields = Some (VList children) ->
    node_in n children ->
    node_in n t.

(** What [list_folder] makes of a response. *)
Definition listing_of (r : Response) : result value :=
  if negb (status_code r =? 200)%Z then Return (VList []) else json r.

(** The value found under a key of a dict, for reading the fields of
    entries and nodes in statements. *)
Definition field (key : string) (v : value) : option value :=
  match v with
  | VDict fields => dict_get key fields
  | _ => None
  end.

(** Whether the loop of [build_tree] makes a node of an entry: its name is
    not the reserved one, and it is a directory or a file with the note
    ending. *)
Definition kept_entry (item : value) : bool :=
  match field "name" item, field "type" item with
  | Some name, Some type =>
      negb (py_eq_str name ".obsidian")
      && (py_eq_str type "dir"
          || (py_eq_str type "file"
              && match name with
                 | VStr s => str_endswith s ".md"
                 | _ => false
                 end))
  | _, _ => false
  end.

(** [item] is the record of a file with the note ending, with any other
    fields it may carry. *)
Definition is_note_file (item : value) (name : string) (path : value) : Prop :=
  field "name" item = Some (VStr name)
  /\ str_endswith name ".md" = true
  /\ field "type" item = Some (VStr "file")
  /\ field "path" item = Some path.

(** What identifies an entry of a listing: its path, its name and whether it
    is a directory. *)
Definition entry_record (item : value) : option value * option value * bool :=
  (field "path" item, field "name" item,
   match field "type" item with
   | Some type => py_eq_str type "dir"
   | None => false
   end).

(** What identifies a node of the tree: its id, its name and whether it has
    children. *)
Definition node_record (n : value) : option value * option value * bool :=
  (field "id" n, field "name" n,
   match field "children" n with
   | Some _ => true
   | None => false
   end).

(** The folder the loop goes into for an entry, if any. *)
Definition enters (item : value) : option string :=
  match field "name" item, field "path" item, field "type" item with
  | Some name, Some (VStr q), Some type =>
      if negb (py_eq_str name ".obsidian") && py_eq_str type "dir" then Some q else None
  | _, _, _ => None
  end.

(** The path an entry reports, if it has one. *)
Definition own_path (item : value) : list value :=
  match field "path" item with
  | Some path => [path]
  | None => []
  end.

(** [reports m items paths]: [paths] are the paths reported by the listings
    the walk over [items] reads, in the order of the walk: the path of every
    entry of [items] and, after the path of a folder the walk goes into, the
    paths reported by the listing [m] holds for it. *)
Inductive reports (m : gmap string value) : list value -> list value -> Prop :=
| reports_nil : reports m [] []
| reports_entered item q contents sub below items rest :
    enters item = Some q ->
    m !! q = Some contents ->
    py_iter contents = Return sub ->
    reports m sub below ->
    reports m items rest ->
    reports m (item :: items) (VStr q :: below ++ rest)
| reports_passed item items rest :
    enters item = None ->
    reports m items rest ->
    reports m (item :: items) (own_path item ++ rest).

(** ** The nodes of a tree and the entries they come from *)

(** [item] is an entry of one of the listings in [m]. *)
Definition listed (m : gmap string value) (item : value) : Prop :=
  exists q contents items,
    m !! q = Some contents /\ py_iter contents = Return items /\ In item items.

(** The node [n] was made from the listing entry [item]. *)
Inductive built_from (m : gmap string value) (item n : value) : Prop :=
| built_folder name p type children :
    py_getitem item "name" = Return name ->
    py_eq_str name ".obsidian" = false ->
    py_getitem item "path" = Return (VStr p) ->
    py_getitem item "type" = Return type ->
    py_eq_str type "dir" = true ->
    tree_for m p children ->
    n = folder_node (VStr p) name children ->
    built_from m item n
| built_note name item_path type :
    py_getitem item "name" = Return name ->
    py_eq_str name ".obsidian" = false ->
    py_getitem item "path" = Return item_path ->
    py_getitem item "type" = Return type ->
    py_eq_str type "file" = true ->
    py_endswith name ".md" = Return true ->
    n = note_node item_path name ->
    built_from m item n.

(** ** Entries of a repository

    The records of a listing, written down by name and path; a directory
    brings its own listing.  They serve to write the example repositories. *)

Inductive remote : Type :=
| RFile (name path : string)
| RDir (name path : string) (listing : list remote).

(** The record the contents API sends for an entry. *)
Definition item_json (e : remote) : value :=
  match e with
  | RFile name path =>
      VDict [("name", VStr name); ("path", VStr path); ("sha", VStr "3b18e512");
             ("size", VNum "120"); ("type", VStr "file")]
  | RDir name path _ =>
      VDict [("name", VStr name); ("path", VStr path); ("sha", VStr "9a41c07f");
             ("size", VNum "0"); ("type", VStr "dir")]
  end.

(** The body the API sends for a directory: the records of its entries, in
    order. *)
Definition listing_json (listing : list remote) : value :=
  VList (map item_json listing).

(** The ids in a node: its own, then those of the nodes below it. *)
Fixpoint node_ids (n : value) : list value :=
  match n with
  | VDict fields =>
      (fix in_fields (fields : list (string * value)) : list value :=
         match fields with
         | [] => []
         | (k, x) :: rest =>
             if String.eqb k "id" then x :: in_fields rest
             else if String.eqb k "children" then
               match x with
               | VList children =>
                   (fix in_children (children : list value) : list value :=
                      match children with
                      | [] => []
                      | c :: rest' => node_ids c ++ in_children rest'
                      end) children ++ in_fields rest
               | _ => in_fields rest
               end
             else in_fields rest
         end) fields
  | _ => []
  end.

Definition tree_ids (t : list value) : list value := flat_map node_ids t.

(** ** Reasoning about computations *)

(** Whatever outcome [m] has from [w] satisfies [Q]. *)
Definition post {A} (m : M A) (w : World) (Q : result A -> World -> Prop) : Prop :=
  forall r w', m w = Some (r, w') -> Q r w'.

(** [m] has an outcome from [w], and it satisfies [Q]. *)
Definition runs {A} (m : M A) (w : World) (Q : result A -> World -> Prop) : Prop :=
  exists r w', m w = Some (r, w') /\ Q r w'.

(** How a postcondition passes through [bind]. *)
Definition through {A B} (k : A -> M B) (Q : result B -> World -> Prop)
    (tri : forall X, M X -> World -> (result X -> World -> Prop) -> Prop)
    (r : result A) (w : World) : Prop :=
  match r with
  | Return a => tri B (k a) w Q
  | Raised e => Q (Raised e) w
  end.

(** ** The caches over the life of the process *)

Section Process.

Variable env : Env.

(** Every stored tree is the tree of the stored listings, and every stored
    listing is what [list_folder] made of some answer of the API. *)
Record wf (w : World) : Prop := {
  wf_tree : forall p t,
    cache_build_tree w !! p = Some t -> tree_for (cache_list_folder w) p t;
  wf_listing : forall p v,
    cache_list_folder w !! p = Some v ->
    exists history,
      listing_of (github env history (api_url env (quote env p)) (HEADERS env)) = Return v
}.

(** Stored listings, dataframes and notes are never replaced, and sent
    requests are never forgotten. *)
Record grows (w w' : World) : Prop := {
  grows_list_folder : cache_list_folder w ⊆ cache_list_folder w';
  grows_fetch_dataframe : cache_fetch_dataframe w ⊆ cache_fetch_dataframe w';
  grows_fetch_note_content : cache_fetch_note_content w ⊆ cache_fetch_note_content w';
  grows_requests : exists sent, requests w' = sent ++ requests w
}.

(** What a call leaves behind, and what it returned: [stored] says where the
    returned value now sits. *)
Definition kept {A} (w : World) (stored : A -> World -> Prop)
    (r : result A) (w' : World) : Prop :=
  wf w' /\ grows w w' /\
  match r with
  | Return a => stored a w'
  | Raised _ => True
  end.

(** What [build_tree] promises about a call, used for the recursive call
    inside the loop. *)
Definition build_tree_call_kept (recurse : value -> M (list value)) : Prop :=
  forall path w,
    wf w ->
    post (recurse path) w
      (kept w (fun t w' => exists p, path = VStr p /\ cache_build_tree w' !! p = Some t)).

(** ** The life of the process

    One call of a decorated function that came to an end, by returning or by
    raising, takes the process from one world to the next. *)
Inductive call (w w' : World) : Prop :=
| call_fetch_dataframe file_path r :
    fetch_dataframe env file_path w = Some (r, w') -> call w w'
| call_list_folder path r :
    list_folder env path w = Some (r, w') -> call w w'
| call_build_tree fuel path r :
    build_tree env fuel path w = Some (r, w') -> call w w'
| call_fetch_note_content file_path r :
    fetch_note_content env file_path w = Some (r, w') -> call w w'.

(** The worlds the process can be in. *)
Definition reachable (w : World) : Prop := rtc call startup w.

(** The API answers every request for the listing of [p] with something
    [list_folder] makes the list [items] of: a 200 with that list as body,
    or, for the empty list, any other status. *)
Definition listing_served (p : string) (items : list value) : Prop :=
  forall history,
    listing_of (github env history (api_url env (quote env p)) (HEADERS env))
    = Return (VList items).

(** An entry the loop of [build_tree] gets through: it has a name; unless
    that is the reserved one it has a path and a type; a directory has a
    [str] path at which the walk can go on ([below]), and a file has a [str]
    name.  Any other fields, in any order, do not matter. *)
Definition entry_settles (below : string -> Prop) (item : value) : Prop :=
  exists name,
    field "name" item = Some name
    /\ (py_eq_str name ".obsidian" = true
        \/ exists path type,
             field "path" item = Some path
             /\ field "type" item = Some type
             /\ if py_eq_str type "dir" then exists q, path = VStr q /\ below q
                else if py_eq_str type "file" then exists s, name = VStr s
                else True).

(** [settles n p]: the API serves a listing at [p] whose entries the loop
    gets through, and so on for every folder the walk goes into, which are
    nested less than [n] deep. *)
Fixpoint settles (n : nat) (p : string) : Prop :=
  match n with
  | O => False
  | S n' => exists items, listing_served p items /\ Forall (entry_settles (settles n')) items
  end.

(** An entry the walk from [p] meets: an entry of the listing served at [p]
    or of the listing served at a folder the walk goes into. *)
Inductive met : string -> value -> Prop :=
| met_here p items item :
    listing_served p items -> In item items -> met p item
| met_below p items folder q item :
    listing_served p items -> In folder items -> enters folder = Some q ->
    met q item -> met p item.

End Process.

(** ** A small repository to run the code on *)

Module Demo.

(** The notes folder: the reserved directory, two notes, an empty folder, a
    picture, and a folder with one note and one more reserved directory. *)
Definition deep : list remote :=
  [ RFile "c.md" "notes/deep/c.md";
    RDir ".obsidian" "notes/deep/.obsidian" [] ].

Definition notes : list remote :=
  [ RDir ".obsidian" "notes/.obsidian" [];
    RFile "b.md" "notes/b.md";
    RDir "empty" "notes/empty" [];
    RFile "img.png" "notes/img.png";
    RDir "deep" "notes/deep" deep;
    RFile "a.md" "notes/a.md" ].

Definition flat : list remote :=
  [ RFile "one.md" "flat/one.md";
    RFile "two.md" "flat/two.md";
    RFile "three.md" "flat/three.md" ].

Definition ok (body : value) : Response :=
  {| status_code := 200; json := Return body |}.

Definition not_found : Response :=
  {| status_code := 404;
     json := Return (VDict [("message", VStr "Not Found"); ("status", VStr "404")]) |}.

Definition bad_gateway : Response :=
  {| status_code := 502;
     json := Raised (Exn JSONDecodeError "Expecting value: line 1 column 1 (char 0)") |}.

(** What the API holds, by path. *)
Definition site : list (string * Response) :=
  [ ("notes", ok (listing_json notes));
    ("notes/.obsidian", ok (listing_json []));
    ("notes/empty", ok (listing_json []));
    ("notes/deep", ok (listing_json deep));
    ("flat", ok (listing_json flat));
    ("notes/a.md", ok (VDict [("name", VStr "a.md"); ("content", VStr "aGk=")]));
    ("notes/b.md", ok (VDict [("name", VStr "b.md"); ("content", VStr "!!!")]));
    ("notes/cut.md", ok (VDict [("name", VStr "cut.md"); ("content", VStr "aGk")]));
    ("notes/five.md", ok (VDict [("name", VStr "five.md"); ("content", VNum "5")]));
    ("data/anime.csv", ok (VDict [("name", VStr "anime.csv"); ("content", VStr "aGk=")]));
    ("data/report.txt", ok (VDict [("name", VStr "report.txt"); ("content", VStr "aGk=")]));
    ("data/null.csv", ok VNone);
    ("broken.md", bad_gateway);
    ("garbled.md",
     {| status_code := 200;
        json := Raised (Exn JSONDecodeError "Expecting value: line 1 column 1 (char 0)") |}) ].

Definition base : string := "https://api.github.com/repos/JIVERU/vault/contents/".

Fixpoint answer (entries : list (string * Response)) (url : string) : Response :=
  match entries with
  | [] => not_found
  | (path, response) :: rest =>
      if String.eqb url (base +:+ path +:+ "?ref=main") then response
      else answer rest url
  end.

(** [base64.b64decode] of a [str], as CPython's [binascii.a2b_base64] does
    it without validation: characters outside the alphabet are passed over,
    and padding ends the data once the open group is complete. *)
Definition sextet (c : Ascii.ascii) : option nat :=
  let n := Ascii.nat_of_ascii c in
  if Nat.leb 65 n && Nat.leb n 90 then Some (n - 65)%nat
  else if Nat.leb 97 n && Nat.leb n 122 then Some (n - 71)%nat
  else if Nat.leb 48 n && Nat.leb n 57 then Some (n + 4)%nat
  else if Nat.eqb n 43 then Some 62%nat
  else if Nat.eqb n 47 then Some 63%nat
  else None.

Fixpoint a2b_base64 (input : list Ascii.ascii) (quad_pos leftchar pads : nat)
    (bin : list nat) : result (list nat) :=
  match input with
  | [] =>
      match quad_pos with
      | 0%nat => Return (rev bin)
      | 1%nat =>
          Raised (Exn BinasciiError
                    ("Invalid base64-encoded string: number of data characters ("
                       +:+ pretty (length bin / 3 * 4 + 1)%nat
                       +:+ ") cannot be 1 more than a multiple of 4"))
      | _ => Raised (Exn BinasciiError "Incorrect padding")
      end
  | c :: rest =>
      if Nat.eqb (Ascii.nat_of_ascii c) 61 then
        if Nat.leb 2 quad_pos then
          if Nat.leb 4 (quad_pos + S pads) then Return (rev bin)
          else a2b_base64 rest quad_pos leftchar (S pads) bin
        else a2b_base64 rest quad_pos leftchar pads bin
      else
        match sextet c with
        | None => a2b_base64 rest quad_pos leftchar pads bin
        | Some this =>
            match quad_pos with
            | 0%nat => a2b_base64 rest 1 this 0 bin
            | 1%nat =>
                a2b_base64 rest 2 (this mod 16) 0 ((leftchar * 4 + this / 16)%nat :: bin)
            | 2%nat =>
                a2b_base64 rest 3 (this mod 4) 0 ((leftchar * 16 + this / 4)%nat :: bin)
            | _ => a2b_base64 rest 0 0 0 ((leftchar * 64 + this)%nat :: bin)
            end
        end
  end.

Definition py_b64decode (s : string) : result (list Byte.byte) :=
  if forallb (fun c => Nat.ltb (Ascii.nat_of_ascii c) 128) (String.list_ascii_of_string s) then
    match a2b_base64 (String.list_ascii_of_string s) 0 0 0 [] with
    | Return bin => Return (map (fun n => Ascii.byte_of_ascii (Ascii.ascii_of_nat n)) bin)
    | Raised e => Raised e
    end
  else Raised (Exn ValueError "string argument should contain only ASCII characters").

(** [bytes.decode("utf-8")] for what a [str] of this model can hold: ASCII
    and the two-byte sequences up to U+00FF.  A byte that starts or continues
    nothing raises, as in Python; a well-formed sequence for a higher code
    point has no [str] here and is reported the same way, which none of the
    examples meets. *)
Fixpoint py_decode_utf8 (bytes : list nat) : result string :=
  match bytes with
  | [] => Return EmptyString
  | b :: rest =>
      if Nat.ltb b 128 then
        match py_decode_utf8 rest with
        | Return s => Return (String (Ascii.ascii_of_nat b) s)
        | Raised e => Raised e
        end
      else
        match rest with
        | b' :: rest' =>
            if (Nat.eqb b 194 || Nat.eqb b 195) && Nat.leb 128 b' && Nat.ltb b' 192 then
              match py_decode_utf8 rest' with
              | Return s => Return (String (Ascii.ascii_of_nat ((b - 192) * 64 + (b' - 128))) s)
              | Raised e => Raised e
              end
            else Raised (Exn UnicodeDecodeError "'utf-8' codec can't decode bytes")
        | [] => Raised (Exn UnicodeDecodeError "'utf-8' codec can't decode bytes")
        end
  end.

(** The paths of this repository have no character [quote] would escape,
    and the one table it holds has the single line ["hi"], of which
    [read_csv] makes a table with that column and no row. *)
Definition env : Env :=
  {| USERNAME := "JIVERU";
     REPO := "vault";
     BRANCH := "main";
     TOKEN := "secret";
     quote := fun s => s;
     b64decode := py_b64decode;
     decode_utf8 := fun bytes =>
       py_decode_utf8 (map (fun b => Ascii.nat_of_ascii (Ascii.ascii_of_byte b)) bytes);
     read_csv := fun text => Return {| df_columns := [text]; df_rows := [] |};
     read_json := fun text => Raised (Exn PandasError "Expected object or value");
     github := fun _ url _ => answer site url |}.

(** The tree of the notes folder and the world after building it. *)
Definition built : option (result (list value) * World) :=
  build_tree env 3 (VStr "notes") startup.

Definition built_tree : list value :=
  match built with
  | Some (Return t, _) => t
  | _ => []
  end.

Definition built_world : World :=
  match built with
  | Some (_, w) => w
  | None => startup
  end.

End Demo.

(** ** The rest of the script *)

(** *** The deadline bars (lines 124-135)

    [days_left] is a whole number of days.  The quotient of line 133 is kept
    exact here; Python rounds it to the nearest double, which keeps the
    order of two values and the bounds 0 and 1. *)

Definition progress_value (days_left : Z) : Q :=
  if (days_left <=? 0)%Z then 1%Q
  else if (days_left >? 30)%Z then 0%Q
  else (inject_Z (30 - days_left) / 30)%Q.

(** [f"{max(0, days_left)} days left"] *)
Definition days_left_text (days_left : Z) : string :=
  pretty (Z.max 0 days_left) +:+ " days left".

(** What the last container of the page shows: the text of [st.info], or
    the note passed to [st.subheader] and to [st.markdown]. *)
Inductive panel : Type :=
| PanelInfo (text : string)
| PanelNote (subheader markdown : string).

(** A body given to [fetch_dataframe] for which the test of line 33 has an
    answer: an object, an array or a string. *)
Definition has_members (data : value) : bool :=
  match data with
  | VDict _ | VList _ | VStr _ => true
  | _ => false
  end.

(** What the recursive call must keep for the loop to keep the stored
    trees. *)
Definition keeps_trees (recurse : value -> M (list value)) : Prop :=
  forall path w,
    post (recurse path) w (fun _ w' => cache_build_tree w ⊆ cache_build_tree w').

Section Script.

Variable env : Env.

(** Whether a JSON number counts as true in a test; Python decides on the
    number, not on its literal. *)
Variable number_is_true : string -> bool.

(** *** The four tables (lines 51-54) *)

Definition load_dataframes : M (DataFrame * DataFrame * DataFrame * DataFrame) :=
  df_anime <~ fetch_dataframe env "data/anime.csv" ;;
  df_procrastination <~ fetch_dataframe env "data/procrastination.csv" ;;
  df_youtube <~ fetch_dataframe env "data/youtube.csv" ;;
  df_deadlines <~ fetch_dataframe env "data/deadlines.csv" ;;
  ret (df_anime, df_procrastination, df_youtube, df_deadlines).

(** *** The notes explorer (lines 176-198) *)

(** [if v:] *)
Definition py_truthy (v : value) : bool :=
  match v with
  | VNone => false
  | VBool b => b
  | VNum lit => number_is_true lit
  | VStr s => negb (String.eqb s "")
  | VList items => match items with [] => false | _ :: _ => true end
  | VDict fields => match fields with [] => false | _ :: _ => true end
  end.

(** [v.get(key)] *)
Definition py_get (v : value) (key : string) : result value :=
  match v with
  | VDict fields =>
      match dict_get key fields with
      | Some x => Return x
      | None => Return VNone
      end
  | _ => Raised (Exn AttributeError
                   ("'" +:+ type_name v +:+ "' object has no attribute 'get'"))
  end.

(** [v[0]] for a [v] that passed a truth test, so a list or a string here
    has a first element. *)
Definition py_first (v : value) : result value :=
  match v with
  | VList (x :: _) => Return x
  | VStr (String c _) => Return (VStr (String c EmptyString))
  | VDict _ => Raised (Exn KeyError "0")
  | _ => Raised (Exn TypeError ("'" +:+ type_name v +:+ "' object is not subscriptable"))
  end.

(** Lines 186-190: the value of [selected_path] after them. *)
Definition selected_path (tree_selection : value) : M value :=
  if py_truthy tree_selection then
    selected <~ lift (py_get tree_selection "selected") ;;
    if py_truthy selected then
      selected' <~ lift (py_getitem tree_selection "selected") ;;
      selected_id <~ lift (py_first selected') ;;
      is_note <~ lift (py_endswith selected_id ".md") ;;
      if is_note then ret selected_id else ret VNone
    else ret VNone
  else ret VNone.

(** [fetch_note_content(v)] for whatever value the selection holds: [quote]
    is the first thing to see it. *)
Definition fetch_note_content_of (file_path : value) : M string :=
  match file_path with
  | VStr p => fetch_note_content env p
  | _ => raise (Exn TypeError "quote_from_bytes() expected bytes")
  end.

(** Lines 192-198. *)
Definition note_panel (tree_selection : value) : M panel :=
  if py_truthy tree_selection then
    path <~ lift (py_getitem tree_selection "path") ;;
    note_content <~ fetch_note_content_of path ;;
    ret (PanelNote note_content note_content)
  else ret (PanelInfo "Select a note from the tree to view its content.").

(** Lines 176-198, with the root folder of the secrets and with what the
    [tree_view] component hands back for the tree it is given. *)
Definition notes_page (fuel : nat) (ROOT_FOLDER : string)
    (tree_view : list value -> value) : M panel :=
  tree_data <~ build_tree env fuel (VStr ROOT_FOLDER) ;;
  _ <~ selected_path (tree_view tree_data) ;;
  note_panel (tree_view tree_data).

End Script.

(** A second repository, for the behaviour the first one does not show. *)
Module Demo2.

Definition site : list (string * Response) :=
  [ ("vault", Demo.ok (listing_json Demo.flat));
    ("flat/one.md", Demo.ok (VDict [("name", VStr "one.md"); ("content", VStr "aGk=")]));
    ("flat/two.md", Demo.ok (VDict [("name", VStr "two.md"); ("content", VStr "%%%")]));
    ("flat/one.txt", Demo.ok (VDict [("name", VStr "one.txt"); ("content", VStr "aGk=")]));
    ("data/anime.csv", Demo.ok (VDict [("content", VStr "aGk=")]));
    ("data/procrastination.csv", Demo.ok (VDict [("content", VStr "aGk=")]));
    ("data/youtube.csv", Demo.ok (VList []));
    ("loop", Demo.ok (VList [VDict [("name", VStr "again"); ("path", VStr "loop");
                                    ("type", VStr "dir")]])) ].

Definition env : Env :=
  {| USERNAME := "JIVERU";
     REPO := "vault";
     BRANCH := "main";
     TOKEN := "secret";
     quote := quote Demo.env;
     b64decode := b64decode Demo.env;
     decode_utf8 := decode_utf8 Demo.env;
     read_csv := read_csv Demo.env;
     read_json := read_json Demo.env;
     github := fun _ url _ => Demo.answer site url |}.

(** What the user has clicked on: nothing, the first node or the second. *)
Definition pick_none (tree_data : list value) : value := VNone.

Definition pick (n : nat) (tree_data : list value) : value :=
  nth n tree_data VNone.

Definition number_is_true (lit : string) : bool := negb (String.eqb lit "0").

End Demo2.

(** ** Facts about computations and listings *)

Lemma post_bind {A B} (m : M A) (k : A -> M B) w Q :
  post m w (through k Q (@post)) -> post (bind m k) w Q.
Proof.
  intros Hm r w' Hrun. unfold bind in Hrun.
  destruct (m w) as [[[a|e] w1]|] eqn:Em; try discriminate.
  - exact (Hm _ _ Em r w' Hrun).
  - injection Hrun as <- <-. exact (Hm _ _ Em).
Qed.

Lemma post_ret {A} (a : A) w (Q : result A -> World -> Prop) :
  Q (Return a) w -> post (ret a) w Q.
Proof. intros HQ r w' [= <- <-]. exact HQ. Qed.

Lemma post_raise {A} e w (Q : result A -> World -> Prop) :
  Q (Raised e) w -> post (raise e) w Q.
Proof. intros HQ r w' [= <- <-]. exact HQ. Qed.

Lemma post_lift {A} (x : result A) w (Q : result A -> World -> Prop) :
  Q x w -> post (lift x) w Q.
Proof. intros HQ r w' [= <- <-]. exact HQ. Qed.

Lemma post_out_of_fuel {A} w (Q : result A -> World -> Prop) :
  post out_of_fuel w Q.
Proof. intros r w' [=]. Qed.

Lemma post_weaken {A} (m : M A) w (Q Q' : result A -> World -> Prop) :
  post m w Q -> (forall r w', Q r w' -> Q' r w') -> post m w Q'.
Proof. intros Hm HQ r w' Hrun. apply HQ, (Hm _ _ Hrun). Qed.

Lemma post_cache_data {A} get set key (body : M A) w (Q : result A -> World -> Prop) :
  (forall v, get w !! key = Some v -> Q (Return v) w) ->
  (get w !! key = None ->
   post body w (fun r w' =>
     match r with
     | Return v => Q (Return v) (set (<[key := v]> (get w')) w')
     | Raised e => Q (Raised e) w'
     end)) ->
  post (cache_data get set (VStr key) body) w Q.
Proof.
  intros Hhit Hmiss r w' Hrun. simpl in Hrun.
  destruct (get w !! key) as [v|] eqn:Ek.
  - injection Hrun as <- <-. auto.
  - specialize (Hmiss eq_refl).
    destruct (body w) as [[[v|e] w1]|] eqn:Eb; try discriminate;
      injection Hrun as <- <-; exact (Hmiss _ _ Eb).
Qed.

Lemma runs_bind {A B} (m : M A) (k : A -> M B) w Q :
  runs m w (through k Q (@runs)) -> runs (bind m k) w Q.
Proof.
  intros (r & w1 & Em & Hk). unfold runs, bind. rewrite Em.
  destruct r as [a|e]; simpl in Hk.
  - exact Hk.
  - exists (Raised e), w1. auto.
Qed.

Lemma runs_ret {A} (a : A) w (Q : result A -> World -> Prop) :
  Q (Return a) w -> runs (ret a) w Q.
Proof. intros HQ. exists (Return a), w. auto. Qed.

Lemma runs_lift {A} (x : result A) w (Q : result A -> World -> Prop) :
  Q x w -> runs (lift x) w Q.
Proof. intros HQ. exists x, w. auto. Qed.

Lemma runs_post {A} (m : M A) w (Q Q' : result A -> World -> Prop) :
  runs m w Q -> post m w Q' -> runs m w (fun r w' => Q r w' /\ Q' r w').
Proof. intros (r & w' & Em & HQ) Hp. exists r, w'. auto. Qed.

Lemma runs_weaken {A} (m : M A) w (Q Q' : result A -> World -> Prop) :
  runs m w Q -> (forall r w', Q r w' -> Q' r w') -> runs m w Q'.
Proof. intros (r & w' & Em & HQ) H. exists r, w'. auto. Qed.

Lemma tree_of_mono m m' items t :
  m ⊆ m' -> tree_of m items t -> tree_of m' items t.
Proof.
  intros Hsub H. induction H.
  - constructor.
  - eapply tree_of_reserved; eauto.
  - eapply tree_of_dir; eauto. eapply lookup_weaken; eauto.
  - eapply tree_of_note; eauto.
  - eapply tree_of_dropped; eauto.
Qed.

Lemma tree_for_mono m m' p t :
  m ⊆ m' -> tree_for m p t -> tree_for m' p t.
Proof.
  intros Hsub (contents & items & Hp & Hit & Ht).
  exists contents, items. split; [eapply lookup_weaken; eauto|].
  split; [done|]. eapply tree_of_mono; eauto.
Qed.

Lemma tree_of_app m items1 t1 items2 t2 :
  tree_of m items1 t1 -> tree_of m items2 t2 -> tree_of m (items1 ++ items2) (t1 ++ t2).
Proof.
  intros H1 H2. induction H1; simpl.
  - exact H2.
  - eapply tree_of_reserved; eauto.
  - eapply tree_of_dir; eauto.
  - eapply tree_of_note; eauto.
  - eapply tree_of_dropped; eauto.
Qed.

(** ** Strings *)

Lemma append_String c a b : String c a +:+ b = String c (a +:+ b).
Proof. reflexivity. Qed.

Lemma str_endswith_eq s suffix :
  str_endswith s suffix =
  String.eqb s suffix ||
  match s with
  | EmptyString => false
  | String _ rest => str_endswith rest suffix
  end.
Proof. by destruct s. Qed.

Lemma str_endswith_iff s suffix :
  str_endswith s suffix = true <-> exists front, s = front +:+ suffix.
Proof.
  induction s as [|c s IH]; rewrite str_endswith_eq.
  - rewrite orb_false_r, String.eqb_eq. split.
    + intros <-. by exists "".
    + intros ([|c front] & Hf); simpl in Hf; [done|discriminate].
  - rewrite orb_true_iff, String.eqb_eq, IH. split.
    + intros [<-|(front & ->)]; [by exists ""|by exists (String c front)].
    + intros ([|c' front] & Hf); simpl in Hf; [by left|].
      injection Hf as <- ->. right. by exists front.
Qed.

Lemma str_contains_iff s sub :
  str_contains s sub = true <-> exists front back, s = front +:+ sub +:+ back.
Proof.
  assert (Hpre : forall a b, String.prefix a b = true <-> exists back, b = a +:+ back).
  { induction a as [|c a IH]; intros [|d b]; simpl.
    - split; [by exists ""|done].
    - split; [by eexists|done].
    - split; [done|]. by intros [back [=]].
    - destruct (Ascii.ascii_dec c d) as [->|Hne].
      + rewrite IH. split; intros [back Hb]; exists back;
          rewrite append_String in *; congruence.
      + split; [done|]. intros [back Hb]. rewrite append_String in Hb. congruence. }
  assert (Heq : forall s, str_contains s sub =
            String.prefix sub s ||
            match s with EmptyString => false | String _ rest => str_contains rest sub end)
    by (by intros []).
  induction s as [|c s IH]; rewrite Heq.
  - rewrite orb_false_r, Hpre. split.
    + intros [back ->]. by exists "", back.
    + intros ([|c front] & back & Hf); [by exists back|].
      rewrite append_String in Hf. discriminate.
  - rewrite orb_true_iff, Hpre, IH. split.
    + intros [[back Hb]|(front & back & ->)].
      * by exists "", back.
      * by exists (String c front), back.
    + intros ([|c' front] & back & Hf).
      * left. by exists back.
      * rewrite append_String in Hf. injection Hf as <- ->. right. by exists front, back.
Qed.

Lemma append_assoc a b c : (a +:+ b) +:+ c = a +:+ b +:+ c.
Proof.
  induction a as [|x a IH]; [done|]. by rewrite !append_String, IH.
Qed.

Lemma append_empty_r a : a +:+ "" = a.
Proof.
  induction a as [|x a IH]; [done|]. by rewrite append_String, IH.
Qed.

Lemma md_not_reserved name :
  str_endswith name ".md" = true -> String.eqb name ".obsidian" = false.
Proof.
  intros Hmd. destruct (String.eqb_spec name ".obsidian") as [->|]; [|done].
  vm_compute in Hmd. discriminate.
Qed.

Lemma tree_of_top m items t :
  tree_of m items t ->
  forall n, In n t -> exists item, In item items /\ built_from m item n.
Proof.
  induction 1 as [|item name items t En Eo _ IH
                  |item name p type contents sub ch items t En Eo Ep Et Ed Hp Hit Hsub _ _ IH
                  |item name ip type items t En Eo Ep Et Ed Ef Emd _ IH
                  |item name ip type items t En Eo Ep Et Ed Hor _ IH];
    intros n Hn.
  - destruct Hn.
  - destruct (IH n Hn) as (it & Hin & Hb). exists it. split; [by right|done].
  - destruct Hn as [<-|Hn].
    + exists item. split; [by left|]. eapply built_folder; eauto.
      by exists contents, sub.
    + destruct (IH n Hn) as (it & Hin & Hb). exists it. split; [by right|done].
  - destruct Hn as [<-|Hn].
    + exists item. split; [by left|]. eapply built_note; eauto.
    + destruct (IH n Hn) as (it & Hin & Hb). exists it. split; [by right|done].
  - destruct (IH n Hn) as (it & Hin & Hb). exists it. split; [by right|done].
Qed.

Lemma tree_of_nodes m n t :
  node_in n t ->
  forall items,
    tree_of m items t ->
    (forall item, In item items -> listed m item) ->
    exists item, listed m item /\ built_from m item n.
Proof.
  induction 1 as [t Hn|t fields children Hin Hch _ IH]; intros items Ht Hl.
  - destruct (tree_of_top _ _ _ Ht n Hn) as (it & Hit & Hb). exists it. auto.
  - destruct (tree_of_top _ _ _ Ht _ Hin) as (it & Hit & Hb).
    destruct Hb as [name p type ch En Eo Ep Et Ed Hfor Heq|name ip type En Eo Ep Et Ef Emd Heq].
    + injection Heq as ->. simpl in Hch. injection Hch as <-.
      destruct Hfor as (contents & sub & Hp & Hiter & Hsub).
      apply (IH sub Hsub). intros item Hitem. by exists p, contents, sub.
    + injection Heq as ->. discriminate.
Qed.

Lemma tree_for_nodes m p t n :
  tree_for m p t -> node_in n t -> exists item, listed m item /\ built_from m item n.
Proof.
  intros (contents & items & Hp & Hit & Ht) Hn.
  eapply tree_of_nodes; eauto. intros item Hitem. by exists p, contents, items.
Qed.

(** The trees a given set of listings leads to are determined by it. *)
Lemma tree_of_functional m items t1 :
  tree_of m items t1 -> forall t2, tree_of m items t2 -> t1 = t2.
Proof.
  induction 1 as [|item name items t En Eo _ IH
                  |item name p type contents sub ch items t En Eo Ep Et Ed Hp Hit _ IHsub _ IH
                  |item name ip type items t En Eo Ep Et Ed Ef Emd _ IH
                  |item name ip type items t En Eo Ep Et Ed Hor _ IH];
    intros t2 H2; inversion H2; subst;
    repeat match goal with
    | Ha : ?x = _, Hb : ?x = _ |- _ => rewrite Ha in Hb; simplify_eq
    | Ha : _ \/ _ |- _ => destruct Ha
    end;
    try done; try (by auto); try (f_equal; by auto).
  f_equal; [|by auto]. f_equal. auto.
Qed.

Lemma py_getitem_field v key x : py_getitem v key = Return x -> field key v = Some x.
Proof.
  destruct v; try discriminate. simpl. by destruct (dict_get key fields); intros [= ->].
Qed.

Lemma node_ids_note item_path name : node_ids (note_node item_path name) = [item_path].
Proof. reflexivity. Qed.

Lemma node_ids_folder item_path name children :
  node_ids (folder_node item_path name children) = item_path :: tree_ids children.
Proof.
  simpl. f_equal. rewrite app_nil_r.
  induction children as [|c rest IH]; simpl; [done|]. by rewrite IH.
Qed.

Lemma field_py_getitem v key x : field key v = Some x -> py_getitem v key = Return x.
Proof. destruct v; try discriminate. simpl. by intros ->. Qed.

Lemma entry_record_eq item name path type :
  py_getitem item "name" = Return name ->
  py_getitem item "path" = Return path ->
  py_getitem item "type" = Return type ->
  entry_record item = (Some path, Some name, py_eq_str type "dir").
Proof.
  intros En Ep Et. unfold entry_record.
  by rewrite (py_getitem_field _ _ _ En), (py_getitem_field _ _ _ Ep),
    (py_getitem_field _ _ _ Et).
Qed.

Lemma kept_entry_eq item name type :
  py_getitem item "name" = Return name ->
  py_getitem item "type" = Return type ->
  kept_entry item
  = negb (py_eq_str name ".obsidian")
    && (py_eq_str type "dir"
        || (py_eq_str type "file"
            && match name with
               | VStr s => str_endswith s ".md"
               | _ => false
               end)).
Proof.
  intros En Et. unfold kept_entry.
  by rewrite (py_getitem_field _ _ _ En), (py_getitem_field _ _ _ Et).
Qed.

(** The nodes made of a listing are, in order, its kept entries. *)
Lemma tree_of_records m items t :
  tree_of m items t ->
  map node_record t = map entry_record (List.filter kept_entry items).
Proof.
  induction 1 as [|item name items t En Eo _ IH
                  |item name p type contents sub ch items t En Eo Ep Et Ed Hp Hit _ _ _ IH
                  |item name ip type items t En Eo Ep Et Ed Ef Emd _ IH
                  |item name ip type items t En Eo Ep Et Ed Hor _ IH];
    cbn [List.filter map].
  - done.
  - assert (kept_entry item = false) as ->; [|done].
    unfold kept_entry. rewrite (py_getitem_field _ _ _ En), Eo.
    by destruct (field "type" item).
  - rewrite (kept_entry_eq _ _ _ En Et), Eo, Ed. cbn [negb andb orb map].
    rewrite (entry_record_eq _ _ _ _ En Ep Et), Ed, <- IH. done.
  - destruct name as [| | |s| |]; try discriminate. injection Emd as Emd.
    rewrite (kept_entry_eq _ _ _ En Et), Eo, Ed, Ef, Emd. cbn [negb andb orb map].
    rewrite (entry_record_eq _ _ _ _ En Ep Et), Ed, <- IH. done.
  - assert (kept_entry item = false) as ->; [|done].
    rewrite (kept_entry_eq _ _ _ En Et), Eo, Ed. cbn [negb andb orb].
    destruct Hor as [Ef|Emd]; [by rewrite Ef|].
    destruct name as [| | |s| |]; try discriminate. injection Emd as Emd.
    rewrite Emd. by rewrite andb_false_r.
Qed.

Lemma enters_dir item name q type :
  py_getitem item "name" = Return name ->
  py_eq_str name ".obsidian" = false ->
  py_getitem item "path" = Return (VStr q) ->
  py_getitem item "type" = Return type ->
  py_eq_str type "dir" = true ->
  enters item = Some q.
Proof.
  intros En Eo Ep Et Ed. unfold enters.
  by rewrite (py_getitem_field _ _ _ En), (py_getitem_field _ _ _ Ep),
    (py_getitem_field _ _ _ Et), Eo, Ed.
Qed.

Lemma enters_not_reserved item name :
  py_getitem item "name" = Return name ->
  py_eq_str name ".obsidian" = true ->
  enters item = None.
Proof.
  intros En Eo. unfold enters. rewrite (py_getitem_field _ _ _ En).
  destruct (field "path" item) as [[]|]; try done.
  destruct (field "type" item); [|done]. by rewrite Eo.
Qed.

Lemma enters_not_dir item type :
  py_getitem item "type" = Return type ->
  py_eq_str type "dir" = false ->
  enters item = None.
Proof.
  intros Et Ed. unfold enters. rewrite (py_getitem_field _ _ _ Et).
  destruct (field "name" item); [|done].
  destruct (field "path" item) as [[]|]; try done.
  by rewrite Ed, andb_false_r.
Qed.

(** The ids of a tree are among the paths its listings report, in order. *)
Lemma tree_of_reports m items t :
  tree_of m items t ->
  exists paths, reports m items paths /\ tree_ids t `sublist_of` paths.
Proof.
  induction 1 as [|item name items t En Eo _ [rest [Hr Hs]]
                  |item name p type contents sub ch items t En Eo Ep Et Ed Hp Hit
                     _ [below [Hrb Hsb]] _ [rest [Hr Hs]]
                  |item name ip type items t En Eo Ep Et Ed Ef Emd _ [rest [Hr Hs]]
                  |item name ip type items t En Eo Ep Et Ed Hor _ [rest [Hr Hs]]].
  - exists []. split; [constructor|done].
  - exists (own_path item ++ rest). split.
    + apply reports_passed; [by eapply enters_not_reserved|done].
    + by apply sublist_inserts_l.
  - exists (VStr p :: below ++ rest). split.
    + eapply reports_entered; eauto. by eapply enters_dir.
    + change (tree_ids (folder_node (VStr p) name ch :: t))
        with (node_ids (folder_node (VStr p) name ch) ++ tree_ids t).
      rewrite node_ids_folder. simpl. apply sublist_skip. by apply sublist_app.
  - exists (own_path item ++ rest). split.
    + apply reports_passed; [by eapply enters_not_dir|done].
    + unfold own_path. rewrite (py_getitem_field _ _ _ Ep).
      change (tree_ids (note_node ip name :: t)) with ([ip] ++ tree_ids t).
      simpl. by apply sublist_skip.
  - exists (own_path item ++ rest). split.
    + apply reports_passed; [by eapply enters_not_dir|done].
    + by apply sublist_inserts_l.
Qed.

(** The paths a set of listings reports are determined by it. *)
Lemma reports_functional m items paths1 :
  reports m items paths1 -> forall paths2, reports m items paths2 -> paths1 = paths2.
Proof.
  induction 1 as [|item q contents sub below items rest Hq Hc Hit _ IHsub _ IH
                  |item items rest Hq _ IH];
    intros paths2 H2; inversion H2; subst; try congruence.
  - assert (q0 = q) as -> by congruence.
    assert (contents0 = contents) as -> by congruence.
    assert (sub0 = sub) as -> by congruence.
    f_equal. f_equal; auto.
  - f_equal. auto.
Qed.

(** A folder the walk goes into has its node, with the tree of its listing
    as children. *)
Lemma tree_of_entered m items t item q :
  tree_of m items t ->
  In item items ->
  enters item = Some q ->
  exists name children,
    field "name" item = Some name
    /\ tree_for m q children
    /\ In (folder_node (VStr q) name children) t.
Proof.
  intros Ht Hin Hq.
  induction Ht as [|x name items t En Eo _ IH
                   |x name p type contents sub ch items t En Eo Ep Et Ed Hp Hit Hsub _ _ IH
                   |x name ip type items t En Eo Ep Et Ed Ef Emd _ IH
                   |x name ip type items t En Eo Ep Et Ed Hor _ IH].
  - destruct Hin.
  - destruct Hin as [->|Hin]; [|by auto].
    rewrite (enters_not_reserved _ _ En Eo) in Hq. discriminate.
  - destruct Hin as [->|Hin].
    + rewrite (enters_dir _ _ _ _ En Eo Ep Et Ed) in Hq. injection Hq as <-.
      exists name, ch. split; [by apply py_getitem_field|]. split; [|by left].
      by exists contents, sub.
    + destruct (IH Hin) as (nm & children & ? & ? & ?).
      exists nm, children. split; [done|]. split; [done|by right].
  - destruct Hin as [->|Hin].
    + rewrite (enters_not_dir _ _ Et Ed) in Hq. discriminate.
    + destruct (IH Hin) as (nm & children & ? & ? & ?).
      exists nm, children. split; [done|]. split; [done|by right].
  - destruct Hin as [->|Hin]; [|by auto].
    rewrite (enters_not_dir _ _ Et Ed) in Hq. discriminate.
Qed.

(** ** Invariants of the caches *)

Section Invariants.

Variable env : Env.

Lemma grows_refl w : grows w w.
Proof. split; try done. by exists []. Qed.

Lemma grows_trans w1 w2 w3 : grows w1 w2 -> grows w2 w3 -> grows w1 w3.
Proof.
  intros [A1 B1 C1 [s1 D1]] [A2 B2 C2 [s2 D2]]. split.
  - by transitivity (cache_list_folder w2).
  - by transitivity (cache_fetch_dataframe w2).
  - by transitivity (cache_fetch_note_content w2).
  - exists (s2 ++ s1). by rewrite D2, D1, app_assoc.
Qed.

Lemma wf_startup : wf env startup.
Proof. split; simpl; intros p x H; by rewrite lookup_empty in H. Qed.

Lemma list_folder_kept path w :
  wf env w ->
  post (list_folder env path) w
    (kept env w (fun c w' => exists p, path = VStr p /\ cache_list_folder w' !! p = Some c)).
Proof.
  intros Hwf r w' Hrun. unfold list_folder in Hrun.
  destruct path as [| | |p| |];
    try (injection Hrun as <- <-; split; [done|]; split; [apply grows_refl|done]).
  simpl in Hrun.
  destruct (cache_list_folder w !! p) as [c|] eqn:Ec.
  { injection Hrun as <- <-. split; [done|]. split; [apply grows_refl|]. eauto. }
  unfold bind, requests_get, st_error, ret, lift in Hrun. simpl in Hrun.
  set (resp := github env (requests w) (api_url env (quote env p)) (HEADERS env)) in *.
  assert (Hl : forall v, listing_of resp = Return v ->
            wf env (set_cache_list_folder (<[p:=v]> (cache_list_folder w)) w)).
  { intros v Hv. destruct Hwf as [Ht Hl]. split; simpl.
    - intros q t Hq. eapply tree_for_mono; [|eauto]. by apply insert_subseteq.
    - intros q x Hq. destruct (decide (p = q)) as [->|Hne].
      + rewrite lookup_insert_eq in Hq. injection Hq as <-. eauto.
      + rewrite lookup_insert_ne in Hq by done. eauto. }
  assert (Hg : forall v errs, grows w
            {| requests := api_url env (quote env p) :: requests w; errors := errs;
               cache_fetch_dataframe := cache_fetch_dataframe w;
               cache_list_folder := <[p:=v]> (cache_list_folder w);
               cache_build_tree := cache_build_tree w;
               cache_fetch_note_content := cache_fetch_note_content w |}).
  { intros v errs. split; simpl; try done.
    - by apply insert_subseteq.
    - by exists [api_url env (quote env p)]. }
  assert (Hw : forall errs, wf env
            {| requests := api_url env (quote env p) :: requests w; errors := errs;
               cache_fetch_dataframe := cache_fetch_dataframe w;
               cache_list_folder := cache_list_folder w;
               cache_build_tree := cache_build_tree w;
               cache_fetch_note_content := cache_fetch_note_content w |}).
  { intros errs. destruct Hwf as [Ht Hl']. split; simpl; eauto. }
  assert (Hg' : forall errs, grows w
            {| requests := api_url env (quote env p) :: requests w; errors := errs;
               cache_fetch_dataframe := cache_fetch_dataframe w;
               cache_list_folder := cache_list_folder w;
               cache_build_tree := cache_build_tree w;
               cache_fetch_note_content := cache_fetch_note_content w |}).
  { intros errs. split; simpl; try done. by exists [api_url env (quote env p)]. }
  unfold listing_of in Hl.
  destruct (negb (status_code resp =? 200)%Z) eqn:Est; simpl in Hrun.
  - injection Hrun as <- <-. split; [|split].
    + specialize (Hl (VList []) eq_refl). destruct Hl as [Ht Hl]. split; simpl; eauto.
    + apply Hg.
    + exists p. split; [done|]. simpl. apply lookup_insert_eq.
  - destruct (json resp) as [v|e] eqn:Ej; injection Hrun as <- <-.
    + split; [|split].
      * specialize (Hl v eq_refl). destruct Hl as [Ht Hl]. split; simpl; eauto.
      * apply Hg.
      * exists p. split; [done|]. simpl. apply lookup_insert_eq.
    + split; [apply Hw|]. split; [apply Hg'|done].
Qed.

Lemma kept_refl {A} w (stored : A -> World -> Prop) (r : result A) :
  wf env w ->
  match r with Return a => stored a w | Raised _ => True end ->
  kept env w stored r w.
Proof. intros Hwf Hr. split; [done|]. split; [apply grows_refl|done]. Qed.

Ltac next_lift E :=
  apply post_bind, post_lift;
  match goal with
  | |- through _ _ _ ?x _ => destruct x eqn:E; unfold through
  end;
  [| by apply kept_refl].

Lemma build_tree_item_kept recurse tree item w :
  build_tree_call_kept env recurse ->
  wf env w ->
  post (build_tree_item recurse tree item) w
    (kept env w (fun tree' w' =>
       exists t, tree' = tree ++ t /\ tree_of (cache_list_folder w') [item] t)).
Proof.
  intros Hrec Hwf. unfold build_tree_item.
  next_lift En. rename a into name.
  destruct (py_eq_str name ".obsidian") eqn:Eo.
  { apply post_ret, kept_refl; [done|]. exists []. rewrite app_nil_r. split; [done|].
    eapply tree_of_reserved; eauto. constructor. }
  next_lift Ep. rename a into item_path.
  next_lift Et. rename a into type.
  destruct (py_eq_str type "dir") eqn:Ed.
  - next_lift En'. assert (a = name) as -> by congruence.
    apply post_bind. eapply post_weaken; [by apply Hrec|].
    intros [children|e] w1 (Hwf1 & Hg1 & Hst); unfold through; [|done].
    destruct Hst as (p & -> & Hc).
    apply post_ret. split; [done|]. split; [done|].
    exists [folder_node (VStr p) name children]. split; [done|].
    destruct (wf_tree _ _ Hwf1 _ _ Hc) as (contents & sub & Hp & Hit & Hsub).
    eapply tree_of_dir; eauto. constructor.
  - next_lift Et'. assert (a = type) as -> by congruence.
    destruct (py_eq_str type "file") eqn:Ef.
    + next_lift En'. assert (a = name) as -> by congruence.
      next_lift Emd. destruct a.
      * next_lift En''. assert (a = name) as -> by congruence.
        apply post_ret, kept_refl; [done|].
        exists [note_node item_path name]. split; [done|].
        eapply tree_of_note; eauto. constructor.
      * apply post_ret, kept_refl; [done|]. exists []. rewrite app_nil_r. split; [done|].
        eapply tree_of_dropped; eauto. constructor.
    + apply post_ret, kept_refl; [done|]. exists []. rewrite app_nil_r. split; [done|].
      eapply tree_of_dropped; eauto. constructor.
Qed.

Lemma for_each_kept recurse items :
  build_tree_call_kept env recurse ->
  forall tree w,
    wf env w ->
    post (for_each (build_tree_item recurse) items tree) w
      (kept env w (fun tree' w' =>
         exists t, tree' = tree ++ t /\ tree_of (cache_list_folder w') items t)).
Proof.
  intros Hrec. induction items as [|item items IH]; intros tree w Hwf; simpl.
  - apply post_ret, kept_refl; [done|]. exists []. rewrite app_nil_r. split; [done|constructor].
  - apply post_bind. eapply post_weaken; [by apply build_tree_item_kept|].
    intros [tree1|e] w1 (Hwf1 & Hg1 & Hst); unfold through; [|done].
    destruct Hst as (t1 & -> & Ht1).
    eapply post_weaken; [by apply IH|].
    intros [tree2|e] w2 (Hwf2 & Hg2 & Hst2).
    + destruct Hst2 as (t2 & -> & Ht2). split; [done|]. split; [by eapply grows_trans|].
      exists (t1 ++ t2). split; [by rewrite app_assoc|].
      change (item :: items) with ([item] ++ items). apply tree_of_app; [|done].
      eapply tree_of_mono; [|done]. apply Hg2.
    + split; [done|]. split; [by eapply grows_trans|done].
Qed.

Lemma build_tree_kept fuel : build_tree_call_kept env (build_tree env fuel).
Proof.
  induction fuel as [|fuel IH]; intros path w Hwf; simpl.
  { apply post_out_of_fuel. }
  set (body := bind (list_folder env path) _).
  assert (Hbody : forall w0, wf env w0 ->
            post body w0 (kept env w0 (fun t w' =>
              exists p, path = VStr p /\ tree_for (cache_list_folder w') p t))).
  { intros w0 Hwf0. unfold body. apply post_bind.
    eapply post_weaken; [by apply list_folder_kept|].
    intros [contents|e] w1 (Hwf1 & Hg1 & Hst); unfold through; [|done].
    destruct Hst as (p & -> & Hc).
    apply post_bind, post_lift.
    destruct (py_iter contents) as [items|e] eqn:Eit; unfold through; [|done].
    eapply post_weaken; [by apply for_each_kept|].
    intros [tree|e] w2 (Hwf2 & Hg2 & Hst2).
    - destruct Hst2 as (t & -> & Ht). split; [done|]. split; [by eapply grows_trans|].
      exists p. split; [done|]. exists contents, items.
      split; [|done]. eapply lookup_weaken; [done|apply Hg2].
    - split; [done|]. split; [by eapply grows_trans|done]. }
  destruct path as [| | |p| |]; try (eapply post_weaken; [by apply Hbody|];
    intros [t|e] w' (Hwf' & Hg' & Hst); [by destruct Hst as (? & ? & _)|done]).
  apply post_cache_data.
  - intros t Ht. apply kept_refl; [done|]. eauto.
  - intros Hmiss. eapply post_weaken; [by apply Hbody|].
    intros [t|e] w' (Hwf' & Hg' & Hst); [|done].
    destruct Hst as (p' & [= <-] & Hfor).
    split; [|split].
    + destruct Hwf' as [Ht Hl]. split; simpl; [|done].
      intros q t' Hq. destruct (decide (p = q)) as [->|Hne].
      * rewrite lookup_insert_eq in Hq. by injection Hq as <-.
      * rewrite lookup_insert_ne in Hq by done. eauto.
    + destruct Hg' as [A B C D]. by split.
    + exists p. split; [done|]. simpl. apply lookup_insert_eq.
Qed.

(** The two functions that build no tree leave listings and trees alone. *)
Lemma fetch_dataframe_kept file_path w :
  wf env w ->
  post (fetch_dataframe env file_path) w
    (kept env w (fun df w' => cache_fetch_dataframe w' !! file_path = Some df)).
Proof.
  intros Hwf. unfold fetch_dataframe. apply post_cache_data.
  { intros df Hdf. by apply kept_refl. }
  intros Hmiss r w' Hrun.
  assert (Hsame : cache_list_folder w' = cache_list_folder w
                  /\ cache_build_tree w' = cache_build_tree w
                  /\ cache_fetch_dataframe w' = cache_fetch_dataframe w
                  /\ cache_fetch_note_content w' = cache_fetch_note_content w
                  /\ exists sent, requests w' = sent ++ requests w).
  { unfold fetch_dataframe_body, bind, try_except, requests_get, st_error, ret, lift in Hrun.
    simpl in Hrun.
    assert (Hsent : exists sent,
              api_url env (quote env file_path) :: requests w = sent ++ requests w)
      by (by exists [api_url env (quote env file_path)]).
    repeat case_match; simplify_eq; simpl; done. }
  destruct Hsame as (Els & Ebt & Edf & Eno & Hsent).
  assert (Hwf' : wf env w').
  { destruct Hwf as [Ht Hl]. split; rewrite ?Els, ?Ebt; done. }
  destruct r as [df|e].
  - split; [|split].
    + destruct Hwf' as [Ht Hl]. by split.
    + split; simpl; rewrite ?Els, ?Eno, ?Edf; try done.
      by apply insert_subseteq.
    + simpl. apply lookup_insert_eq.
  - split; [done|]. split; [|done]. split; rewrite ?Els, ?Eno, ?Edf; done.
Qed.

Lemma fetch_note_content_kept file_path w :
  wf env w ->
  post (fetch_note_content env file_path) w
    (kept env w (fun text w' => cache_fetch_note_content w' !! file_path = Some text)).
Proof.
  intros Hwf. unfold fetch_note_content. apply post_cache_data.
  { intros text Htext. by apply kept_refl. }
  intros Hmiss r w' Hrun.
  assert (Hsame : cache_list_folder w' = cache_list_folder w
                  /\ cache_build_tree w' = cache_build_tree w
                  /\ cache_fetch_dataframe w' = cache_fetch_dataframe w
                  /\ cache_fetch_note_content w' = cache_fetch_note_content w
                  /\ exists sent, requests w' = sent ++ requests w).
  { unfold fetch_note_content_body, bind, try_except, requests_get, ret, lift in Hrun.
    simpl in Hrun.
    assert (Hsent : exists sent,
              api_url env (quote env file_path) :: requests w = sent ++ requests w)
      by (by exists [api_url env (quote env file_path)]).
    repeat case_match; simplify_eq; simpl; done. }
  destruct Hsame as (Els & Ebt & Edf & Eno & Hsent).
  assert (Hwf' : wf env w').
  { destruct Hwf as [Ht Hl]. split; rewrite ?Els, ?Ebt; done. }
  destruct r as [text|e].
  - split; [|split].
    + destruct Hwf' as [Ht Hl]. by split.
    + split; simpl; rewrite ?Els, ?Eno, ?Edf; try done.
      by apply insert_subseteq.
    + simpl. apply lookup_insert_eq.
  - split; [done|]. split; [|done]. split; rewrite ?Els, ?Eno, ?Edf; done.
Qed.

Lemma call_kept w w' : wf env w -> call env w w' -> wf env w' /\ grows w w'.
Proof.
  intros Hwf [p r Hrun|v r Hrun|fuel v r Hrun|p r Hrun].
  - destruct (fetch_dataframe_kept p w Hwf _ _ Hrun) as (? & ? & _). done.
  - destruct (list_folder_kept v w Hwf _ _ Hrun) as (? & ? & _). done.
  - destruct (build_tree_kept fuel v w Hwf _ _ Hrun) as (? & ? & _). done.
  - destruct (fetch_note_content_kept p w Hwf _ _ Hrun) as (? & ? & _). done.
Qed.

Lemma calls_kept w w' : wf env w -> rtc (call env) w w' -> wf env w' /\ grows w w'.
Proof.
  intros Hwf Hcalls. induction Hcalls as [w|w w1 w2 Hc _ IH].
  - split; [done|apply grows_refl].
  - destruct (call_kept _ _ Hwf Hc) as [Hwf1 Hg1].
    destruct (IH Hwf1) as [Hwf2 Hg2]. split; [done|]. by eapply grows_trans.
Qed.

Lemma reachable_wf w : reachable env w -> wf env w.
Proof. intros H. by destruct (calls_kept _ _ wf_startup H). Qed.

End Invariants.

(** ** Listings the API serves *)

Section Settles.

Variable env : Env.

Lemma served_stored w p items contents :
  wf env w -> listing_served env p items ->
  cache_list_folder w !! p = Some contents ->
  contents = VList items.
Proof.
  intros Hwf Hs Hc. destruct (wf_listing _ _ Hwf _ _ Hc) as [history Hl].
  rewrite Hs in Hl. congruence.
Qed.

Lemma list_folder_served p items w :
  wf env w -> listing_served env p items ->
  runs (list_folder env (VStr p)) w
    (fun r w' => r = Return (VList items) /\ wf env w').
Proof.
  intros Hwf Hs.
  assert (Hrun : runs (list_folder env (VStr p)) w
                   (fun r _ => r = Return (VList items))).
  { unfold runs, list_folder. simpl.
    destruct (cache_list_folder w !! p) as [c|] eqn:Ec.
    - rewrite (served_stored _ _ _ _ Hwf Hs Ec). eauto.
    - specialize (Hs (requests w)). unfold listing_of in Hs.
      unfold bind, requests_get, st_error, ret, lift. simpl.
      destruct (negb _); simpl.
      + injection Hs as <-. eauto.
      + rewrite Hs. eauto. }
  eapply runs_weaken; [exact (runs_post _ _ _ _ Hrun (list_folder_kept env _ w Hwf))|].
  intros r w' [-> (Hwf' & _)]. done.
Qed.

(** What a recursive call must deliver for the loop to get through. *)
Lemma build_tree_item_settles recurse (below : string -> Prop) tree item w :
  (forall q w0,
     below q -> wf env w0 ->
     runs (recurse (VStr q)) w0 (fun r w' => (exists t, r = Return t) /\ wf env w')) ->
  entry_settles below item ->
  wf env w ->
  runs (build_tree_item recurse tree item) w
    (fun r w' => (exists tree', r = Return tree') /\ wf env w').
Proof.
  intros Hrec (name & En & Hcases) Hwf. unfold build_tree_item.
  apply field_py_getitem in En.
  apply runs_bind, runs_lift. rewrite En. cbn [through].
  destruct Hcases as [Eo|(path & type & Ep & Et & Hkind)].
  { rewrite Eo. apply runs_ret. eauto. }
  apply field_py_getitem in Ep, Et.
  destruct (py_eq_str name ".obsidian"); [apply runs_ret; by eauto|].
  apply runs_bind, runs_lift. rewrite Ep. cbn [through].
  apply runs_bind, runs_lift. rewrite Et. cbn [through].
  destruct (py_eq_str type "dir").
  - destruct Hkind as (q & -> & Hq).
    apply runs_bind, runs_lift. cbn [through].
    apply runs_bind. eapply runs_weaken; [by apply Hrec|].
    intros r w' [[t ->] Hwf']. cbn [through]. apply runs_ret. eauto.
  - apply runs_bind, runs_lift. cbn [through].
    destruct (py_eq_str type "file"); [|apply runs_ret; by eauto].
    destruct Hkind as [s ->].
    apply runs_bind, runs_lift. cbn [through].
    apply runs_bind, runs_lift. cbn [through py_endswith].
    destruct (str_endswith s ".md"); [|apply runs_ret; by eauto].
    apply runs_bind, runs_lift. cbn [through]. apply runs_ret. eauto.
Qed.

Lemma for_each_settles recurse (below : string -> Prop) items :
  (forall q w0,
     below q -> wf env w0 ->
     runs (recurse (VStr q)) w0 (fun r w' => (exists t, r = Return t) /\ wf env w')) ->
  Forall (entry_settles below) items ->
  forall tree w,
    wf env w ->
    runs (for_each (build_tree_item recurse) items tree) w
      (fun r w' => (exists tree', r = Return tree') /\ wf env w').
Proof.
  intros Hrec Hall. induction Hall as [|item items Hitem _ IH]; intros tree w Hwf.
  - apply runs_ret. eauto.
  - cbn [for_each]. apply runs_bind.
    eapply runs_weaken; [by eapply build_tree_item_settles|].
    intros r w1 [[tree1 ->] Hwf1]. cbn [through]. by apply IH.
Qed.

Lemma settles_build_tree fuel :
  forall n p w,
    settles env n p -> n <= fuel -> wf env w ->
    runs (build_tree env fuel (VStr p)) w
      (fun r w' => (exists t, r = Return t) /\ wf env w').
Proof.
  induction fuel as [|fuel IH]; intros n p w Hn Hle Hwf.
  { assert (n = 0) as -> by lia. destruct Hn. }
  destruct n as [|n]; [destruct Hn|]. destruct Hn as (items & Hs & Hall).
  assert (Hrun : runs (build_tree env (S fuel) (VStr p)) w
                   (fun r _ => exists t, r = Return t)).
  { unfold runs. simpl.
    destruct (cache_build_tree w !! p) as [t|] eqn:Ec; [by eauto|].
    match goal with |- context [bind ?m ?k w] =>
      assert (Hbody : runs (bind m k) w (fun r _ => exists t, r = Return t))
    end.
    { apply runs_bind. eapply runs_weaken; [by apply list_folder_served|].
      intros r w1 [-> Hwf1]. cbn [through].
      apply runs_bind, runs_lift. cbn [through py_iter].
      eapply runs_weaken.
      - apply (for_each_settles _ (settles env n) items); [|done|done].
        intros q w0 Hq Hwf0. apply (IH n); [done|lia|done].
      - intros r w2 [Hr _]. done. }
    destruct Hbody as (r & w' & -> & [t ->]). eauto. }
  eapply runs_weaken; [exact (runs_post _ _ _ _ Hrun (build_tree_kept env _ _ w Hwf))|].
  intros r w' [Hr (Hwf' & _)]. done.
Qed.

(** An entry met on the walk from a folder that is the folder of a tree has
    its node in that tree, when it is itself a folder the walk goes into. *)
Lemma met_node_in w p item :
  wf env w ->
  met env p item ->
  forall t q,
    tree_for (cache_list_folder w) p t ->
    enters item = Some q ->
    exists name children,
      field "name" item = Some name
      /\ tree_for (cache_list_folder w) q children
      /\ node_in (folder_node (VStr q) name children) t.
Proof.
  intros Hwf.
  induction 1 as [p items item Hs Hin|p items folder q' item Hs Hin Hq' _ IH];
    intros t q (contents & stored & Hp & Hit & Ht) Hq.
  - rewrite (served_stored _ _ _ _ Hwf Hs Hp) in Hit. injection Hit as <-.
    destruct (tree_of_entered _ _ _ _ _ Ht Hin Hq) as (name & ch & ? & ? & ?).
    exists name, ch. split; [done|]. split; [done|]. by apply node_here.
  - rewrite (served_stored _ _ _ _ Hwf Hs Hp) in Hit. injection Hit as <-.
    destruct (tree_of_entered _ _ _ _ _ Ht Hin Hq') as (fname & fch & _ & Hfor & Hfin).
    destruct (IH fch q Hfor Hq) as (name & ch & ? & ? & Hnode).
    exists name, ch. split; [done|]. split; [done|].
    by apply (node_below _ _ [("id", VStr q'); ("name", fname); ("children", VList fch)] fch).
Qed.

End Settles.

Lemma settles_mono env n p : settles env n p -> settles env (S n) p.
Proof.
  revert p. induction n as [|n IH]; intros p; [by intros []|].
  intros (items & Hs & Hall). exists items. split; [done|].
  eapply Forall_impl; [exact Hall|].
  intros item (name & En & Hcases). exists name. split; [done|].
  destruct Hcases as [Eo|(path & type & Ep & Et & Hkind)]; [by left|right].
  exists path, type. split; [done|]. split; [done|].
  destruct (py_eq_str type "dir"); [|done].
  destruct Hkind as (q & -> & Hq). exists q. split; [done|]. by apply IH.
Qed.

Lemma demo_notes_settle : settles Demo.env 2 "notes".
Proof.
  exists (map item_json Demo.notes). split; [done|].
  repeat constructor; eexists; (split; [reflexivity|]);
    try (by left); right; eexists _, _; (split; [reflexivity|]);
    (split; [reflexivity|]); simpl; eauto.
  - eexists. split; [reflexivity|]. exists []. split; [done|constructor].
  - eexists. split; [reflexivity|]. exists (map item_json Demo.deep). split; [done|].
    repeat constructor; eexists; (split; [reflexivity|]);
      try (by left); right; eexists _, _; (split; [reflexivity|]);
      (split; [reflexivity|]); simpl; eauto.
Qed.

Example demo_built_tree :
  Demo.built_tree =
  [ note_node (VStr "notes/b.md") (VStr "b.md");
    folder_node (VStr "notes/empty") (VStr "empty") [];
    folder_node (VStr "notes/deep") (VStr "deep")
      [ note_node (VStr "notes/deep/c.md") (VStr "c.md") ];
    note_node (VStr "notes/a.md") (VStr "a.md") ].
Proof. vm_compute. reflexivity. Qed.

Example demo_built_requests :
  requests Demo.built_world =
  [ Demo.base +:+ "notes/deep?ref=main";
    Demo.base +:+ "notes/empty?ref=main";
    Demo.base +:+ "notes?ref=main" ].
Proof. vm_compute. reflexivity. Qed.

Lemma demo_built :
  build_tree Demo.env 3 (VStr "notes") startup
  = Some (Return Demo.built_tree, Demo.built_world).
Proof. vm_compute. reflexivity. Qed.

(** ** The properties of the specification *)

(** A tree [build_tree] returned is the tree of the listings stored when it
    returned. *)
Lemma build_tree_returns_tree_for env fuel path w t w' :
  reachable env w ->
  build_tree env fuel path w = Some (Return t, w') ->
  wf env w' /\ exists p, path = VStr p /\ tree_for (cache_list_folder w') p t.
Proof.
  intros Hreach Hrun. pose proof (reachable_wf _ _ Hreach) as Hwf.
  destruct (build_tree_kept env fuel path w Hwf _ _ Hrun) as (Hwf' & _ & p & -> & Hc).
  split; [done|]. exists p. split; [done|]. by apply (wf_tree _ _ Hwf').
Qed.

(** C2. No node of the tree [build_tree] returns, at any depth, is named
    [.obsidian], whatever the API answered; and the loop skips every entry
    whose name is exactly [.obsidian], leaving the tree built so far as it
    is. *)
Theorem build_tree_never_shows_obsidian env fuel path w t w' :
  reachable env w ->
  build_tree env fuel path w = Some (Return t, w') ->
  (forall n, node_in n t -> py_getitem n "name" <> Return (VStr ".obsidian"))
  /\ (forall recurse tree item w0,
        py_getitem item "name" = Return (VStr ".obsidian") ->
        build_tree_item recurse tree item w0 = Some (Return tree, w0)).
Proof.
  intros Hreach Hrun.
  destruct (build_tree_returns_tree_for _ _ _ _ _ _ Hreach Hrun) as (_ & p & -> & Hfor).
  split.
  - intros n Hn. destruct (tree_for_nodes _ _ _ _ Hfor Hn) as (item & _ & Hb).
    destruct Hb as [name q type ch _ Eo _ _ _ _ ->|name ip type _ Eo _ _ _ _ ->];
      simpl; intros [= ->]; simpl in Eo; discriminate.
  - intros recurse tree item w0 Hname. unfold build_tree_item, bind, lift.
    by rewrite Hname.
Qed.

Lemma build_tree_never_shows_obsidian_witness :
  reachable Demo.env startup
  /\ build_tree Demo.env 3 (VStr "notes") startup
     = Some (Return Demo.built_tree, Demo.built_world)
  /\ (forall n, node_in n Demo.built_tree ->
        py_getitem n "name" <> Return (VStr ".obsidian"))
  /\ (forall recurse tree item w0,
        py_getitem item "name" = Return (VStr ".obsidian") ->
        build_tree_item recurse tree item w0 = Some (Return tree, w0)).
Proof.
  split; [apply rtc_refl|]. split; [vm_compute; reflexivity|].
  apply (build_tree_never_shows_obsidian Demo.env 3 (VStr "notes") startup
           Demo.built_tree Demo.built_world).
  - apply rtc_refl.
  - vm_compute; reflexivity.
Defined.

(** C3. Every node of the returned tree that has a [path] field (a Note) has
    a name ending with [.md]; and the loop passes over an entry of type
    [file] whose name does not end with [.md] without raising, reporting or
    adding anything. *)
Theorem build_tree_notes_end_with_md env fuel path w t w' :
  reachable env w ->
  build_tree env fuel path w = Some (Return t, w') ->
  (forall n,
     node_in n t -> py_contains n "path" = Return true ->
     exists front, py_getitem n "name" = Return (VStr (front +:+ ".md")))
  /\ (forall recurse tree item name item_path w0,
        py_getitem item "name" = Return (VStr name) ->
        py_getitem item "path" = Return item_path ->
        py_getitem item "type" = Return (VStr "file") ->
        str_endswith name ".md" = false ->
        build_tree_item recurse tree item w0 = Some (Return tree, w0)).
Proof.
  intros Hreach Hrun.
  destruct (build_tree_returns_tree_for _ _ _ _ _ _ Hreach Hrun) as (_ & p & -> & Hfor).
  split.
  - intros n Hn Hpath. destruct (tree_for_nodes _ _ _ _ Hfor Hn) as (item & _ & Hb).
    destruct Hb as [name q type ch _ _ _ _ _ _ ->|name ip type _ _ _ _ _ Emd ->].
    + vm_compute in Hpath. discriminate.
    + destruct name as [| | |s| |]; try discriminate.
      injection Emd as Emd. apply str_endswith_iff in Emd as [front ->].
      by exists front.
  - intros recurse tree item name item_path w0 Hname Hpath Htype Hmd.
    unfold build_tree_item, bind, lift, ret. rewrite Hname, Hpath, Htype. simpl.
    rewrite Hmd. by destruct (String.eqb name ".obsidian").
Qed.

Lemma build_tree_notes_end_with_md_witness :
  reachable Demo.env startup
  /\ build_tree Demo.env 3 (VStr "notes") startup
     = Some (Return Demo.built_tree, Demo.built_world)
  /\ (forall n,
        node_in n Demo.built_tree -> py_contains n "path" = Return true ->
        exists front, py_getitem n "name" = Return (VStr (front +:+ ".md")))
  /\ (forall recurse tree item name item_path w0,
        py_getitem item "name" = Return (VStr name) ->
        py_getitem item "path" = Return item_path ->
        py_getitem item "type" = Return (VStr "file") ->
        str_endswith name ".md" = false ->
        build_tree_item recurse tree item w0 = Some (Return tree, w0)).
Proof.
  split; [apply rtc_refl|]. split; [vm_compute; reflexivity|].
  apply (build_tree_notes_end_with_md Demo.env 3 (VStr "notes") startup
           Demo.built_tree Demo.built_world).
  - apply rtc_refl.
  - vm_compute; reflexivity.
Defined.

(** A file with the note ending passes through the loop as a Note node. *)
Lemma build_tree_item_note recurse tree item name path w :
  is_note_file item name path ->
  build_tree_item recurse tree item w
  = Some (Return (tree ++ [VDict [("id", path); ("name", VStr name); ("path", path)]]), w).
Proof.
  intros (En & Emd & Et & Ep). apply field_py_getitem in En, Et, Ep.
  unfold build_tree_item, bind, lift, ret. rewrite En, Ep, Et. simpl.
  by rewrite (md_not_reserved _ Emd), Emd.
Qed.

Lemma tree_of_note_file m item name path items t :
  is_note_file item name path ->
  tree_of m items t ->
  tree_of m (item :: items) (VDict [("id", path); ("name", VStr name); ("path", path)] :: t).
Proof.
  intros (En & Emd & Et & Ep) Ht. apply field_py_getitem in En, Et, Ep.
  apply (tree_of_note m item (VStr name) path (VStr "file")); try done.
  - simpl. by apply md_not_reserved.
  - simpl. by rewrite Emd.
Qed.

(** A stored listing is what the listing call returns, with no request. *)
Lemma stored_list_folder env p contents w :
  cache_list_folder w !! p = Some contents ->
  list_folder env (VStr p) w = Some (Return contents, w).
Proof. intros Hp. unfold list_folder. cbn [cache_data]. by rewrite Hp. Qed.

(** C6. Whatever the API answers, the nodes [build_tree] returns for a
    folder are, in the order of the listing, its entries with only the
    skipped ones removed: listing the id, the name and the kind of every
    node gives the path, the name and the kind of every entry that is not
    named [.obsidian] and is a directory or an [.md] file, of the listing
    [list_folder] returns for the folder.  This holds for the root and for
    the children of every Folder node at any depth.  When the listing call returns three [.md] files and
    nothing else, [build_tree] returns the three Note nodes, in that order.
    And [build_tree] does return whenever the API serves listings it can
    walk. *)
Theorem build_tree_keeps_listing_order env w :
  reachable env w ->
  (forall fuel path t w',
     build_tree env fuel path w = Some (Return t, w') ->
     (exists p contents items,
        path = VStr p
        /\ list_folder env (VStr p) w' = Some (Return contents, w')
        /\ py_iter contents = Return items
        /\ map node_record t = map entry_record (List.filter kept_entry items))
     /\ (forall n children,
           node_in n t -> field "children" n = Some (VList children) ->
           exists q contents items,
             field "id" n = Some (VStr q)
             /\ list_folder env (VStr q) w' = Some (Return contents, w')
             /\ py_iter contents = Return items
             /\ map node_record children
                = map entry_record (List.filter kept_entry items)))
  /\ (forall fuel p w1 i1 n1 p1 i2 n2 p2 i3 n3 p3,
        list_folder env (VStr p) w = Some (Return (VList [i1; i2; i3]), w1) ->
        is_note_file i1 n1 p1 -> is_note_file i2 n2 p2 -> is_note_file i3 n3 p3 ->
        exists w',
          build_tree env (S fuel) (VStr p) w
          = Some (Return [ VDict [("id", p1); ("name", VStr n1); ("path", p1)];
                           VDict [("id", p2); ("name", VStr n2); ("path", p2)];
                           VDict [("id", p3); ("name", VStr n3); ("path", p3)] ], w'))
  /\ (forall n fuel p,
        settles env n p -> n <= fuel ->
        exists t w', build_tree env fuel (VStr p) w = Some (Return t, w')).
Proof.
  intros Hreach. pose proof (reachable_wf _ _ Hreach) as Hwf. split; [|split].
  - intros fuel path t w' Hrun.
    destruct (build_tree_returns_tree_for _ _ _ _ _ _ Hreach Hrun) as (_ & p & -> & Hfor).
    split.
    + destruct Hfor as (contents & items & Hp & Hit & Ht).
      exists p, contents, items. split; [done|]. split; [by apply stored_list_folder|].
      split; [done|]. by apply (tree_of_records _ _ _ Ht).
    + intros n children Hn Hch.
      destruct (tree_for_nodes _ _ _ _ Hfor Hn) as (item & _ & Hb).
      destruct Hb as [name q type ch _ _ _ _ _ Hsub ->|name ip type _ _ _ _ _ _ ->];
        [|discriminate].
      simpl in Hch. injection Hch as <-.
      destruct Hsub as (contents & items & Hq & Hit & Ht).
      exists q, contents, items. split; [done|]. split; [by apply stored_list_folder|].
      split; [done|]. by apply (tree_of_records _ _ _ Ht).
  - intros fuel p w1 i1 n1 p1 i2 n2 p2 i3 n3 p3 Hls H1 H2 H3.
    cbn [build_tree cache_data]. destruct (cache_build_tree w !! p) as [t|] eqn:Ec.
    + exists w. do 2 f_equal. f_equal.
      destruct (wf_tree _ _ Hwf _ _ Ec) as (contents & items & Hp & Hit & Ht).
      unfold list_folder in Hls. cbn [cache_data] in Hls. rewrite Hp in Hls.
      injection Hls as -> _. simpl in Hit. injection Hit as <-.
      apply (tree_of_functional _ _ _ Ht).
      do 3 (apply tree_of_note_file; [done|]). constructor.
    + unfold bind at 1. rewrite Hls. unfold bind at 1. cbn [lift py_iter for_each].
      unfold bind at 1. rewrite (build_tree_item_note _ _ _ _ _ _ H1).
      unfold bind at 1. rewrite (build_tree_item_note _ _ _ _ _ _ H2).
      unfold bind at 1. rewrite (build_tree_item_note _ _ _ _ _ _ H3).
      cbn [ret app]. eauto.
  - intros n fuel p Hn Hle.
    destruct (settles_build_tree env fuel n p w Hn Hle Hwf) as (r & w' & Hrun & [t ->] & _).
    eauto.
Qed.

Lemma build_tree_keeps_listing_order_witness :
  ((exists p contents items,
      VStr "notes" = VStr p
      /\ list_folder Demo.env (VStr p) Demo.built_world = Some (Return contents, Demo.built_world)
      /\ py_iter contents = Return items
      /\ map node_record Demo.built_tree
         = map entry_record (List.filter kept_entry items))
   /\ (forall n children,
         node_in n Demo.built_tree -> field "children" n = Some (VList children) ->
         exists q contents items,
           field "id" n = Some (VStr q)
           /\ list_folder Demo.env (VStr q) Demo.built_world
              = Some (Return contents, Demo.built_world)
           /\ py_iter contents = Return items
           /\ map node_record children
              = map entry_record (List.filter kept_entry items)))
  /\ (exists w',
        build_tree Demo.env 1 (VStr "flat") startup
        = Some (Return [ note_node (VStr "flat/one.md") (VStr "one.md");
                         note_node (VStr "flat/two.md") (VStr "two.md");
                         note_node (VStr "flat/three.md") (VStr "three.md") ], w'))
  /\ (exists t w', build_tree Demo.env 3 (VStr "notes") startup = Some (Return t, w')).
Proof.
  destruct (build_tree_keeps_listing_order Demo.env startup (rtc_refl _ _))
    as (Horder & Hthree & Hreturns).
  split; [|split].
  - apply (Horder 3 (VStr "notes")). vm_compute; reflexivity.
  - eapply (Hthree 0 "flat").
    + vm_compute; reflexivity.
    + repeat split.
    + repeat split.
    + repeat split.
  - apply (Hreturns 2 3 "notes"); [apply demo_notes_settle|lia].
Defined.

(** C7, as the code has it.  Take a record of type ["dir"], not named
    [.obsidian], with path [q]; it may carry any other fields.  Whatever the
    API answers, in every tree [build_tree] returns the record has its
    Folder node with an empty list of children wherever it was met and the
    listing read for [q] was empty: among the nodes of the root when it is an
    entry of the listing of the root, among the children of a Folder node, at
    any depth, when it is an entry of the listing of that folder.  And when
    the API serves listings [build_tree] can walk from [p], [build_tree]
    does return a tree, with that node in it for every such record met on
    the walk whose own listing is served empty. *)
Theorem build_tree_keeps_empty_folder env w item name q :
  reachable env w ->
  field "name" item = Some name ->
  py_eq_str name ".obsidian" = false ->
  field "path" item = Some (VStr q) ->
  field "type" item = Some (VStr "dir") ->
  (forall fuel path t w',
     build_tree env fuel path w = Some (Return t, w') ->
     forall p nodes contents items emptied,
       (path = VStr p /\ nodes = t
        \/ exists name',
             node_in (VDict [("id", VStr p); ("name", name'); ("children", VList nodes)]) t) ->
       cache_list_folder w' !! p = Some contents ->
       py_iter contents = Return items ->
       In item items ->
       cache_list_folder w' !! q = Some emptied ->
       py_iter emptied = Return [] ->
       In (VDict [("id", VStr q); ("name", name); ("children", VList [])]) nodes)
  /\ (forall n fuel p,
        settles env n p -> n <= fuel ->
        met env p item ->
        listing_served env q [] ->
        exists t w',
          build_tree env fuel (VStr p) w = Some (Return t, w')
          /\ node_in (VDict [("id", VStr q); ("name", name); ("children", VList [])]) t
          /\ (forall items,
                listing_served env p items -> In item items ->
                In (VDict [("id", VStr q); ("name", name); ("children", VList [])]) t)).
Proof.
  intros Hreach En Eo Ep Et.
  pose proof (reachable_wf _ _ Hreach) as Hwf.
  assert (Hq : enters item = Some q).
  { unfold enters. by rewrite En, Ep, Et, Eo. }
  split.
  - intros fuel path t w' Hrun p nodes contents items emptied Hlevel Hp Hit Hin Hqe Hqi.
    destruct (build_tree_returns_tree_for _ _ _ _ _ _ Hreach Hrun) as (_ & p0 & -> & Hfor).
    assert (Hnodes : tree_for (cache_list_folder w') p nodes).
    { destruct Hlevel as [[[= <-] ->]|[name' Hnode]]; [exact Hfor|].
      destruct (tree_for_nodes _ _ _ _ Hfor Hnode) as (x & _ & Hb).
      destruct Hb as [xname xq xtype ch _ _ _ _ _ Hch Heq|xname xp xtype _ _ _ _ _ _ Heq];
        [|discriminate].
      by injection Heq as <- _ <-. }
    destruct Hnodes as (contents' & items' & Hp' & Hit' & Ht).
    rewrite Hp in Hp'. injection Hp' as <-. rewrite Hit in Hit'. injection Hit' as <-.
    destruct (tree_of_entered _ _ _ _ _ Ht Hin Hq) as (name' & ch & En' & Hch & Hnode).
    rewrite En in En'. injection En' as <-.
    destruct Hch as (contents' & sub & Hc & Hsi & Hsub).
    rewrite Hqe in Hc. injection Hc as <-. rewrite Hqi in Hsi. injection Hsi as <-.
    inversion Hsub; subst. exact Hnode.
  - intros n fuel p Hn Hle Hmet Hempty.
    destruct (settles_build_tree env fuel n p w Hn Hle Hwf)
      as (r & w' & Hrun & [t ->] & Hwf').
    exists t, w'. split; [done|].
    destruct (build_tree_returns_tree_for _ _ _ _ _ _ Hreach Hrun)
      as (_ & p' & [= <-] & Hfor).
    assert (Hnone : forall children,
               tree_for (cache_list_folder w') q children -> children = []).
    { intros children (contents & sub & Hc & Hit & Hsub).
      rewrite (served_stored _ _ _ _ _ Hwf' Hempty Hc) in Hit. injection Hit as <-.
      by inversion Hsub. }
    split.
    + destruct (met_node_in env w' p item Hwf' Hmet t q Hfor Hq)
        as (name' & ch & En' & Hch & Hnode).
      rewrite En in En'. injection En' as <-. by rewrite (Hnone ch Hch) in Hnode.
    + intros items Hs Hin. destruct Hfor as (contents & stored & Hp & Hit & Ht).
      rewrite (served_stored _ _ _ _ _ Hwf' Hs Hp) in Hit. injection Hit as <-.
      destruct (tree_of_entered _ _ _ _ _ Ht Hin Hq) as (name' & ch & En' & Hch & Hnode).
      rewrite En in En'. injection En' as <-. by rewrite (Hnone ch Hch) in Hnode.
Qed.

Lemma build_tree_keeps_empty_folder_witness :
  In (VDict [("id", VStr "notes/empty"); ("name", VStr "empty"); ("children", VList [])])
     Demo.built_tree
  /\ exists t w',
       build_tree Demo.env 3 (VStr "notes") startup = Some (Return t, w')
       /\ node_in (VDict [("id", VStr "notes/empty"); ("name", VStr "empty");
                          ("children", VList [])]) t
       /\ (forall items,
             listing_served Demo.env "notes" items ->
             In (item_json (RDir "empty" "notes/empty" [])) items ->
             In (VDict [("id", VStr "notes/empty"); ("name", VStr "empty");
                        ("children", VList [])]) t).
Proof.
  destruct (build_tree_keeps_empty_folder Demo.env startup
              (item_json (RDir "empty" "notes/empty" [])) (VStr "empty") "notes/empty"
              (rtc_refl _ _) eq_refl eq_refl eq_refl eq_refl) as (Hnode & Hreturns).
  split.
  - apply (Hnode 3 (VStr "notes") Demo.built_tree Demo.built_world)
      with (p := "notes") (contents := listing_json Demo.notes)
           (items := map item_json Demo.notes) (emptied := VList []).
    + vm_compute; reflexivity.
    + left. split; reflexivity.
    + vm_compute; reflexivity.
    + reflexivity.
    + right. right. left. reflexivity.
    + vm_compute; reflexivity.
    + reflexivity.
  - apply (Hreturns 2 3 "notes").
    + apply demo_notes_settle.
    + lia.
    + apply (met_here Demo.env "notes" (map item_json Demo.notes)); [done|].
      right. right. left. reflexivity.
    + done.
Defined.

(** C7, as the specification words it, fails: the listing of the demo
    repository has an entry of type ["dir"] named [.obsidian] whose own
    listing is served and empty, and the tree has no node for it at any
    depth. *)
Lemma empty_obsidian_folder_is_omitted :
  In (item_json (RDir ".obsidian" "notes/.obsidian" [])) (map item_json Demo.notes)
  /\ field "type" (item_json (RDir ".obsidian" "notes/.obsidian" [])) = Some (VStr "dir")
  /\ listing_served Demo.env "notes" (map item_json Demo.notes)
  /\ listing_served Demo.env "notes/.obsidian" []
  /\ build_tree Demo.env 3 (VStr "notes") startup
     = Some (Return Demo.built_tree, Demo.built_world)
  /\ ~ In (VStr "notes/.obsidian") (tree_ids Demo.built_tree)
  /\ ~ In (folder_node (VStr "notes/.obsidian") (VStr ".obsidian") []) Demo.built_tree.
Proof.
  split; [by left|]. split; [reflexivity|]. split; [done|]. split; [done|].
  split; [vm_compute; reflexivity|].
  split; vm_compute; intros H; repeat (destruct H as [H|H]; [discriminate|]); exact H.
Qed.

(** C8. Every node of the returned tree, at any depth, was made from an
    entry of a stored listing and is a dict with exactly the fields [id],
    [name], [children] (a Folder, whose children are the tree of the listing
    stored for its id) or exactly [id], [name], [path] (a Note, whose path is
    its id); its id is the path of the entry and its name the name of the
    entry.  The ids of the tree are, in order, among the paths the listings
    read on the walk report, so when those paths are all distinct no id
    occurs twice in the tree.  No assumption is made on what the API
    answers. *)
Theorem build_tree_nodes_and_ids env fuel path w t w' :
  reachable env w ->
  build_tree env fuel path w = Some (Return t, w') ->
  (forall n,
     node_in n t ->
     exists item id name,
       listed (cache_list_folder w') item
       /\ py_getitem item "path" = Return id
       /\ py_getitem item "name" = Return name
       /\ ((exists q children,
              id = VStr q
              /\ tree_for (cache_list_folder w') q children
              /\ n = VDict [("id", id); ("name", name); ("children", VList children)])
           \/ n = VDict [("id", id); ("name", name); ("path", id)]))
  /\ (exists p contents items paths,
        path = VStr p
        /\ cache_list_folder w' !! p = Some contents
        /\ py_iter contents = Return items
        /\ reports (cache_list_folder w') items paths
        /\ (forall paths', reports (cache_list_folder w') items paths' -> paths' = paths)
        /\ tree_ids t `sublist_of` paths
        /\ (NoDup paths -> NoDup (tree_ids t))).
Proof.
  intros Hreach Hrun.
  destruct (build_tree_returns_tree_for _ _ _ _ _ _ Hreach Hrun) as (Hwf' & p & -> & Hfor).
  split.
  - intros n Hn. destruct (tree_for_nodes _ _ _ _ Hfor Hn) as (item & Hl & Hb).
    destruct Hb as [name q type ch En _ Ep _ _ Hch ->|name ip type En _ Ep _ _ _ ->].
    + exists item, (VStr q), name. do 3 (split; [assumption|]). left.
      exists q, ch. split; [reflexivity|]. split; [exact Hch|reflexivity].
    + exists item, ip, name. do 3 (split; [assumption|]). right. reflexivity.
  - destruct Hfor as (contents & items & Hp & Hit & Ht).
    destruct (tree_of_reports _ _ _ Ht) as (paths & Hr & Hsub).
    exists p, contents, items, paths. do 4 (split; [done|]).
    split; [|split; [done|]].
    + intros paths' Hr'. by apply (reports_functional _ _ _ Hr').
    + intros Hnd. by eapply sublist_NoDup.
Qed.

Lemma build_tree_nodes_and_ids_witness :
  reports (cache_list_folder Demo.built_world) (map item_json Demo.notes)
    [ VStr "notes/.obsidian"; VStr "notes/b.md"; VStr "notes/empty"; VStr "notes/img.png";
      VStr "notes/deep"; VStr "notes/deep/c.md"; VStr "notes/deep/.obsidian";
      VStr "notes/a.md" ]
  /\ NoDup (tree_ids Demo.built_tree).
Proof.
  assert (Hreports :
    reports (cache_list_folder Demo.built_world) (map item_json Demo.notes)
      [ VStr "notes/.obsidian"; VStr "notes/b.md"; VStr "notes/empty"; VStr "notes/img.png";
        VStr "notes/deep"; VStr "notes/deep/c.md"; VStr "notes/deep/.obsidian";
        VStr "notes/a.md" ]).
  { assert (Hwalk : exists paths,
              reports (cache_list_folder Demo.built_world) (map item_json Demo.notes) paths
              /\ paths = [ VStr "notes/.obsidian"; VStr "notes/b.md"; VStr "notes/empty";
                           VStr "notes/img.png"; VStr "notes/deep"; VStr "notes/deep/c.md";
                           VStr "notes/deep/.obsidian"; VStr "notes/a.md" ]).
    { eexists. split.
      - unfold Demo.notes. cbn [map].
        eapply reports_passed; [reflexivity|].
        eapply reports_passed; [reflexivity|].
        eapply (reports_entered _ _ "notes/empty" (VList []) [] []);
          [reflexivity|vm_compute; reflexivity|reflexivity|constructor|].
        eapply reports_passed; [reflexivity|].
        eapply (reports_entered _ _ "notes/deep" (listing_json Demo.deep)
                  (map item_json Demo.deep));
          [reflexivity|vm_compute; reflexivity|reflexivity| |].
        + unfold Demo.deep. cbn [map].
          eapply reports_passed; [reflexivity|].
          eapply reports_passed; [reflexivity|]. constructor.
        + eapply reports_passed; [reflexivity|]. constructor.
      - reflexivity. }
    destruct Hwalk as (paths & Hwalk & ->). exact Hwalk. }
  split; [exact Hreports|].
  destruct (build_tree_nodes_and_ids Demo.env 3 (VStr "notes") startup
              Demo.built_tree Demo.built_world)
    as (_ & p & contents & items & paths & Hp & Hc & Hit & _ & Huniq & _ & Hnd).
  - apply rtc_refl.
  - vm_compute; reflexivity.
  - apply Hnd. injection Hp as <-.
    assert (contents = listing_json Demo.notes) as ->.
    { assert (Hstored : cache_list_folder Demo.built_world !! "notes"
                        = Some (listing_json Demo.notes)) by (vm_compute; reflexivity).
      congruence. }
    injection Hit as <-. rewrite <- (Huniq _ Hreports).
    assert (Hinj : Inj (=) (=) VStr) by (intros a b; congruence).
    apply (NoDup_fmap_2 VStr [ "notes/.obsidian"; "notes/b.md"; "notes/empty";
                               "notes/img.png"; "notes/deep"; "notes/deep/c.md";
                               "notes/deep/.obsidian"; "notes/a.md" ]).
    apply (bool_decide_unpack _). vm_compute. exact I.
Defined.

(** C4. When the body of the answer is a JSON object without a [content]
    field, [fetch_note_content] returns the sentinel text and does not
    raise. *)
Theorem fetch_note_content_without_content env file_path w fields :
  cache_fetch_note_content w !! file_path = None ->
  json (github env (requests w) (api_url env (quote env file_path)) (HEADERS env))
  = Return (VDict fields) ->
  dict_get "content" fields = None ->
  exists w',
    fetch_note_content env file_path w = Some (Return "Could not fetch note content.", w').
Proof.
  intros Hmiss Hjson Hfield. unfold fetch_note_content. simpl. rewrite Hmiss.
  unfold fetch_note_content_body, bind, requests_get, lift. simpl. rewrite Hjson. simpl.
  rewrite Hfield. simpl. eauto.
Qed.

Lemma fetch_note_content_without_content_witness :
  exists w',
    fetch_note_content Demo.env "notes/gone.md" startup
    = Some (Return "Could not fetch note content.", w').
Proof.
  apply (fetch_note_content_without_content Demo.env "notes/gone.md" startup
           [("message", VStr "Not Found"); ("status", VStr "404")]).
  - vm_compute; reflexivity.
  - vm_compute; reflexivity.
  - vm_compute; reflexivity.
Defined.

(** The message [fetch_dataframe] and [list_folder] show for a status other
    than 200 names the path and the status. *)
Lemma failed_to_fetch_names_path_and_status (p : string) (status : Z) :
  let msg := "Failed to fetch " +:+ p +:+ ": " +:+ pretty status in
  str_contains msg p = true /\ str_contains msg (pretty status) = true.
Proof.
  split; apply str_contains_iff.
  - by exists "Failed to fetch ", (": " +:+ pretty status).
  - exists ("Failed to fetch " +:+ p +:+ ": "), "".
    by rewrite append_empty_r, !append_assoc.
Qed.

(** C5, as the code has it.  For a status other than 200, [fetch_dataframe]
    and [list_folder] show an error that names the path and the status and
    return an empty dataframe, respectively an empty list, without raising.
    [fetch_note_content] does not look at the status: for a body that is a
    JSON object without [content] it returns its sentinel text and shows no
    error. *)
Theorem non_200_status_handling env p w (status : Z) :
  status_code (github env (requests w) (api_url env (quote env p)) (HEADERS env)) = status ->
  status <> 200%Z ->
  (str_contains ("Failed to fetch " +:+ p +:+ ": " +:+ pretty status) p = true
   /\ str_contains ("Failed to fetch " +:+ p +:+ ": " +:+ pretty status) (pretty status) = true)
  /\ (cache_fetch_dataframe w !! p = None ->
      exists w',
        fetch_dataframe env p w = Some (Return empty_DataFrame, w')
        /\ errors w' = ("Failed to fetch " +:+ p +:+ ": " +:+ pretty status) :: errors w)
  /\ (cache_list_folder w !! p = None ->
      exists w',
        list_folder env (VStr p) w = Some (Return (VList []), w')
        /\ errors w' = ("Failed to fetch " +:+ p +:+ ": " +:+ pretty status) :: errors w)
  /\ (cache_fetch_note_content w !! p = None ->
      forall fields,
        json (github env (requests w) (api_url env (quote env p)) (HEADERS env))
        = Return (VDict fields) ->
        dict_get "content" fields = None ->
        exists w',
          fetch_note_content env p w = Some (Return "Could not fetch note content.", w')
          /\ errors w' = errors w).
Proof.
  intros Hst Hne.
  assert (Hneq : negb (status =? 200)%Z = true).
  { apply negb_true_iff, Z.eqb_neq, Hne. }
  split; [apply failed_to_fetch_names_path_and_status|]. split; [|split].
  - intros Hmiss. unfold fetch_dataframe. simpl. rewrite Hmiss.
    unfold fetch_dataframe_body, bind, requests_get, st_error, ret. simpl.
    rewrite Hst, Hneq. simpl. eauto.
  - intros Hmiss. unfold list_folder. simpl. rewrite Hmiss.
    unfold bind, requests_get, st_error, ret. simpl.
    rewrite Hst, Hneq. simpl. eauto.
  - intros Hmiss fields Hjson Hfield. unfold fetch_note_content. simpl. rewrite Hmiss.
    unfold fetch_note_content_body, bind, requests_get, lift. simpl. rewrite Hjson. simpl.
    rewrite Hfield. simpl. eauto.
Qed.

Lemma non_200_status_handling_witness :
  (exists w',
     fetch_dataframe Demo.env "data/gone.csv" startup = Some (Return empty_DataFrame, w')
     /\ errors w' = ["Failed to fetch data/gone.csv: 404"])
  /\ (exists w',
        list_folder Demo.env (VStr "data/gone.csv") startup = Some (Return (VList []), w')
        /\ errors w' = ["Failed to fetch data/gone.csv: 404"]).
Proof.
  assert (Hst : status_code (github Demo.env (requests startup)
                  (api_url Demo.env (quote Demo.env "data/gone.csv")) (HEADERS Demo.env))
                = 404%Z) by (vm_compute; reflexivity).
  assert (Hne : 404%Z <> 200%Z) by lia.
  pose proof (non_200_status_handling Demo.env "data/gone.csv" startup 404 Hst Hne)
    as (_ & Hdf & Hls & _).
  split.
  - apply Hdf. vm_compute; reflexivity.
  - apply Hls. vm_compute; reflexivity.
Defined.

(** C5, as the specification words it, fails in [fetch_note_content]: the
    answer has status 404, nothing is shown by [st.error], and what comes
    back is the sentinel text and not an empty result. *)
Lemma fetch_note_content_ignores_status :
  status_code (github Demo.env [] (api_url Demo.env "notes/gone.md") (HEADERS Demo.env))
  = 404%Z
  /\ exists w',
       fetch_note_content Demo.env "notes/gone.md" startup
       = Some (Return "Could not fetch note content.", w')
       /\ errors w' = []
       /\ requests w' = [api_url Demo.env "notes/gone.md"].
Proof.
  split; [vm_compute; reflexivity|]. eexists. split; [vm_compute; reflexivity|].
  split; reflexivity.
Qed.



(** C10. A path that ends in neither [.csv] nor [.json] gets an empty
    dataframe and the message about the unsupported type, also when the
    answer was 200 and its content decoded. *)
Theorem fetch_dataframe_unsupported_type env file_path w data content decoded :
  cache_fetch_dataframe w !! file_path = None ->
  status_code (github env (requests w) (api_url env (quote env file_path)) (HEADERS env))
  = 200%Z ->
  json (github env (requests w) (api_url env (quote env file_path)) (HEADERS env))
  = Return data ->
  py_contains data "content" = Return true ->
  py_getitem data "content" = Return content ->
  b64decode_utf8 env content = Return decoded ->
  str_endswith file_path ".csv" = false ->
  str_endswith file_path ".json" = false ->
  exists w',
    fetch_dataframe env file_path w = Some (Return empty_DataFrame, w')
    /\ errors w' = ("Unsupported file type: " +:+ file_path) :: errors w.
Proof.
  intros Hmiss Hst Hjson Hin Hget Hdec Hcsv Hjs.
  unfold fetch_dataframe. simpl. rewrite Hmiss.
  unfold fetch_dataframe_body, bind, try_except, requests_get, st_error, ret, lift. simpl.
  rewrite Hst, Hjson. simpl. rewrite Hin. simpl. rewrite Hget, Hdec, Hcsv, Hjs. simpl.
  eauto.
Qed.

Lemma fetch_dataframe_unsupported_type_witness :
  exists w',
    fetch_dataframe Demo.env "data/report.txt" startup = Some (Return empty_DataFrame, w')
    /\ errors w' = ["Unsupported file type: data/report.txt"].
Proof.
  apply (fetch_dataframe_unsupported_type Demo.env "data/report.txt" startup
           (VDict [("name", VStr "report.txt"); ("content", VStr "aGk=")])
           (VStr "aGk=") "hi");
    vm_compute; reflexivity.
Defined.

(** What [fetch_note_content] and [list_folder] do with a body that is not
    JSON: [response.json()] raises outside any [try], and so do they. *)
Lemma unparsed_json_raises env p w e :
  json (github env (requests w) (api_url env (quote env p)) (HEADERS env)) = Raised e ->
  (cache_fetch_note_content w !! p = None ->
   exists w', fetch_note_content env p w = Some (Raised e, w'))
  /\ (cache_list_folder w !! p = None ->
      status_code (github env (requests w) (api_url env (quote env p)) (HEADERS env))
      = 200%Z ->
      exists w', list_folder env (VStr p) w = Some (Raised e, w')).
Proof.
  intros Hjson. split.
  - intros Hmiss. unfold fetch_note_content. simpl. rewrite Hmiss.
    unfold fetch_note_content_body, bind, requests_get, lift. simpl. rewrite Hjson. eauto.
  - intros Hmiss Hst. unfold list_folder. simpl. rewrite Hmiss.
    unfold bind, requests_get, lift. simpl. rewrite Hst, Hjson. simpl. eauto.
Qed.

(** A body that is JSON but neither an object, a list nor a string makes the
    test on line 33, which sits between the two [try] blocks, raise. *)
Example fetch_dataframe_null_body :
  exists w',
    fetch_dataframe Demo.env "data/null.csv" startup
    = Some (Raised (Exn TypeError "argument of type 'NoneType' is not iterable"), w').
Proof. eexists. vm_compute. reflexivity. Qed.

(** C1 does not hold of the code.  For an answer with status 200 whose body
    is not JSON, [fetch_dataframe] shows an error and returns the empty
    dataframe, as the claim says, but [fetch_note_content], [list_folder] and
    with it [build_tree] let the exception of [response.json()] escape. *)
Theorem malformed_json_escapes :
  github Demo.env [] (api_url Demo.env "garbled.md") (HEADERS Demo.env)
  = {| status_code := 200;
       json := Raised (Exn JSONDecodeError "Expecting value: line 1 column 1 (char 0)") |}
  /\ (exists w',
        fetch_dataframe Demo.env "garbled.md" startup = Some (Return empty_DataFrame, w')
        /\ errors w' = [ "Failed to parse JSON from garbled.md: "
                         +:+ "Expecting value: line 1 column 1 (char 0)" ])
  /\ (exists w',
        fetch_note_content Demo.env "garbled.md" startup
        = Some (Raised (Exn JSONDecodeError "Expecting value: line 1 column 1 (char 0)"), w'))
  /\ (exists w',
        list_folder Demo.env (VStr "garbled.md") startup
        = Some (Raised (Exn JSONDecodeError "Expecting value: line 1 column 1 (char 0)"), w'))
  /\ (exists w',
        build_tree Demo.env 1 (VStr "garbled.md") startup
        = Some (Raised (Exn JSONDecodeError "Expecting value: line 1 column 1 (char 0)"), w')).
Proof.
  split; [vm_compute; reflexivity|].
  split; [eexists; split; [vm_compute; reflexivity|reflexivity]|].
  repeat split; eexists; vm_compute; reflexivity.
Qed.

(** ** More of the script: the fetch functions *)

(** X1. [fetch_dataframe] returns, whatever the status, the body and the
    decoders do, as long as a body that parses is an object, an array or a
    string. *)
Theorem fetch_dataframe_returns env file_path w :
  (forall data,
     json (github env (requests w) (api_url env (quote env file_path)) (HEADERS env))
     = Return data ->
     has_members data = true) ->
  exists df w', fetch_dataframe env file_path w = Some (Return df, w').
Proof.
  intros Hbody. unfold fetch_dataframe. simpl.
  destruct (cache_fetch_dataframe w !! file_path) as [df|]; [by eauto|].
  unfold fetch_dataframe_body, bind, try_except, requests_get, st_error, ret, lift. simpl.
  destruct (negb _); simpl; [by eauto|].
  destruct (json _) as [data|e] eqn:Ej; simpl; [|by eauto].
  specialize (Hbody data eq_refl).
  destruct data; try discriminate; simpl;
    repeat (case_match; simpl; simplify_eq; eauto).
Qed.

Lemma fetch_dataframe_returns_witness :
  exists df w', fetch_dataframe Demo.env "notes/b.md" startup = Some (Return df, w').
Proof.
  apply (fetch_dataframe_returns Demo.env "notes/b.md" startup).
  intros data Hdata. vm_compute in Hdata. injection Hdata as <-. reflexivity.
Defined.

(** X2. On a call that is not answered from the cache, [fetch_dataframe]
    sends exactly one request, and what it returns is either the table
    [read_csv] or [read_json] made of the decoded content of a 200 answer,
    the reader chosen by the ending of the path, with no error shown; or the
    empty table together with exactly one error. *)
Theorem fetch_dataframe_table_or_error env file_path w df w' :
  cache_fetch_dataframe w !! file_path = None ->
  fetch_dataframe env file_path w = Some (Return df, w') ->
  requests w' = api_url env (quote env file_path) :: requests w
  /\ ((errors w' = errors w
       /\ status_code (github env (requests w) (api_url env (quote env file_path))
                         (HEADERS env)) = 200%Z
       /\ exists data content decoded,
            json (github env (requests w) (api_url env (quote env file_path))
                    (HEADERS env)) = Return data
            /\ py_getitem data "content" = Return content
            /\ b64decode_utf8 env content = Return decoded
            /\ ((str_endswith file_path ".csv" = true
                 /\ read_csv env decoded = Return df)
                \/ (str_endswith file_path ".csv" = false
                    /\ str_endswith file_path ".json" = true
                    /\ read_json env decoded = Return df)))
      \/ (df = empty_DataFrame /\ exists msg, errors w' = msg :: errors w)).
Proof.
  intros Hmiss. unfold fetch_dataframe. simpl. rewrite Hmiss.
  unfold fetch_dataframe_body, bind, try_except, requests_get, st_error, ret, lift. simpl.
  destruct (negb _) eqn:Est; simpl.
  { intros [= <- <-]. simpl. split; [done|]. right. eauto. }
  apply negb_false_iff, Z.eqb_eq in Est.
  destruct (json _) as [data|e] eqn:Ej; simpl.
  2:{ intros [= <- <-]. simpl. split; [done|]. right. eauto. }
  destruct (py_contains data "content") as [[|]|e] eqn:Ein; simpl;
    try (intros [= <- <-]; simpl; split; [done|]; right; by eauto); [|done].
  destruct (py_getitem data "content") as [content|e] eqn:Eget; simpl.
  2:{ intros [= <- <-]. simpl. split; [done|]. right. eauto. }
  destruct (b64decode_utf8 env content) as [decoded|e] eqn:Edec; simpl.
  2:{ intros [= <- <-]. simpl. split; [done|]. right. eauto. }
  destruct (str_endswith file_path ".csv") eqn:Ecsv; simpl.
  { destruct (read_csv env decoded) as [table|e] eqn:Er; simpl;
      intros [= <- <-]; simpl; (split; [done|]).
    - left. split; [done|]. split; [done|]. exists data, content, decoded. auto 10.
    - right. eauto. }
  destruct (str_endswith file_path ".json") eqn:Ejs; simpl.
  { destruct (read_json env decoded) as [table|e] eqn:Er; simpl;
      intros [= <- <-]; simpl; (split; [done|]).
    - left. split; [done|]. split; [done|]. exists data, content, decoded. auto 10.
    - right. eauto. }
  intros [= <- <-]. simpl. split; [done|]. right. eauto.
Qed.

Lemma fetch_dataframe_table_or_error_witness :
  exists w',
    fetch_dataframe Demo.env "data/anime.csv" startup
    = Some (Return {| df_columns := ["hi"]; df_rows := [] |}, w')
    /\ requests w' = [api_url Demo.env "data/anime.csv"]
    /\ errors w' = [].
Proof.
  eexists. split; [vm_compute; reflexivity|].
  match goal with
  | |- requests ?w' = _ /\ _ =>
      destruct (fetch_dataframe_table_or_error Demo.env "data/anime.csv" startup
                  {| df_columns := ["hi"]; df_rows := [] |} w')
        as [Hreq Hcases]
  end.
  - vm_compute; reflexivity.
  - vm_compute; reflexivity.
  - split; [exact Hreq|]. destruct Hcases as [[Herr _]|[Hdf _]]; [exact Herr|discriminate].
Defined.

(** X3. A failed fetch is remembered.  After [fetch_dataframe] or
    [list_folder] met a status other than 200, every later call for the same
    path, whatever the API would answer by then, gets the empty result from
    the cache and sends nothing. *)
Theorem failed_fetch_is_remembered env p w :
  reachable env w ->
  status_code (github env (requests w) (api_url env (quote env p)) (HEADERS env))
  <> 200%Z ->
  (cache_fetch_dataframe w !! p = None ->
   forall r w1 w2,
     fetch_dataframe env p w = Some (r, w1) ->
     rtc (call env) w1 w2 ->
     fetch_dataframe env p w2 = Some (Return empty_DataFrame, w2))
  /\ (cache_list_folder w !! p = None ->
      forall r w1 w2,
        list_folder env (VStr p) w = Some (r, w1) ->
        rtc (call env) w1 w2 ->
        list_folder env (VStr p) w2 = Some (Return (VList []), w2)).
Proof.
  intros Hreach Hst. pose proof (reachable_wf _ _ Hreach) as Hwf.
  assert (Hneq : negb (status_code (github env (requests w) (api_url env (quote env p))
                                      (HEADERS env)) =? 200)%Z = true).
  { apply negb_true_iff, Z.eqb_neq, Hst. }
  split; intros Hmiss r w1 w2 Hrun Hcalls.
  - assert (r = Return empty_DataFrame) as ->.
    { revert Hrun. unfold fetch_dataframe. simpl. rewrite Hmiss.
      unfold fetch_dataframe_body, bind, requests_get, st_error, ret. simpl.
      rewrite Hneq. simpl. by intros [= <- _]. }
    destruct (fetch_dataframe_kept env p w Hwf _ _ Hrun) as (Hwf1 & _ & Hstored).
    destruct (calls_kept env _ _ Hwf1 Hcalls) as [_ Hg].
    unfold fetch_dataframe. simpl.
    by rewrite (lookup_weaken _ _ _ _ Hstored (grows_fetch_dataframe _ _ Hg)).
  - assert (r = Return (VList [])) as ->.
    { revert Hrun. unfold list_folder. simpl. rewrite Hmiss.
      unfold bind, requests_get, st_error, ret. simpl.
      rewrite Hneq. simpl. by intros [= <- _]. }
    destruct (list_folder_kept env _ w Hwf _ _ Hrun) as (Hwf1 & _ & q & [= <-] & Hstored).
    destruct (calls_kept env _ _ Hwf1 Hcalls) as [_ Hg].
    unfold list_folder. simpl.
    by rewrite (lookup_weaken _ _ _ _ Hstored (grows_list_folder _ _ Hg)).
Qed.

Lemma failed_fetch_is_remembered_witness :
  exists w1,
    fetch_dataframe Demo.env "data/gone.csv" startup = Some (Return empty_DataFrame, w1)
    /\ fetch_dataframe Demo.env "data/gone.csv" w1 = Some (Return empty_DataFrame, w1).
Proof.
  eexists. split; [vm_compute; reflexivity|].
  refine (proj1 (failed_fetch_is_remembered Demo.env "data/gone.csv" startup _ _)
            _ (Return empty_DataFrame) _ _ _ _).
  - apply rtc_refl.
  - vm_compute. discriminate.
  - vm_compute; reflexivity.
  - vm_compute; reflexivity.
  - apply rtc_refl.
Defined.

(** X4. For a body that is a JSON object, [fetch_note_content] on a call not
    answered from the cache sends one request, shows no error, never raises,
    and returns the sentinel (no [content]), the decoded text, or the text
    ["Error decoding file: "] followed by the message of the exception the
    decoding raised. *)
Theorem fetch_note_content_of_object env file_path w fields :
  cache_fetch_note_content w !! file_path = None ->
  json (github env (requests w) (api_url env (quote env file_path)) (HEADERS env))
  = Return (VDict fields) ->
  exists text w',
    fetch_note_content env file_path w = Some (Return text, w')
    /\ requests w' = api_url env (quote env file_path) :: requests w
    /\ errors w' = errors w
    /\ match dict_get "content" fields with
       | None => text = "Could not fetch note content."
       | Some content =>
           match b64decode_utf8 env content with
           | Return decoded => text = decoded
           | Raised e => text = "Error decoding file: " +:+ exn_str e
           end
       end.
Proof.
  intros Hmiss Hjson. unfold fetch_note_content. simpl. rewrite Hmiss.
  unfold fetch_note_content_body, bind, try_except, requests_get, ret, lift. simpl.
  rewrite Hjson. simpl.
  destruct (dict_get "content" fields) as [content|] eqn:Ec; simpl.
  - destruct (b64decode_utf8 env content) as [decoded|e]; simpl; eauto 10.
  - eauto 10.
Qed.

Lemma fetch_note_content_of_object_witness :
  (exists w', fetch_note_content Demo.env "notes/a.md" startup = Some (Return "hi", w'))
  /\ (exists w', fetch_note_content Demo.env "notes/b.md" startup = Some (Return EmptyString, w'))
  /\ (exists w',
        fetch_note_content Demo.env "notes/cut.md" startup
        = Some (Return "Error decoding file: Incorrect padding", w'))
  /\ (exists w',
        fetch_note_content Demo.env "notes/five.md" startup
        = Some (Return ("Error decoding file: argument should be a bytes-like object "
                          +:+ "or ASCII string, not 'int'"), w')).
Proof.
  split; [|split; [|split]].
  - destruct (fetch_note_content_of_object Demo.env "notes/a.md" startup
                [("name", VStr "a.md"); ("content", VStr "aGk=")])
      as (text & w' & Hrun & _ & _ & Htext).
    + vm_compute; reflexivity.
    + vm_compute; reflexivity.
    + exists w'. vm_compute in Htext. subst text. exact Hrun.
  - destruct (fetch_note_content_of_object Demo.env "notes/b.md" startup
                [("name", VStr "b.md"); ("content", VStr "!!!")])
      as (text & w' & Hrun & _ & _ & Htext).
    + vm_compute; reflexivity.
    + vm_compute; reflexivity.
    + exists w'. vm_compute in Htext. subst text. exact Hrun.
  - destruct (fetch_note_content_of_object Demo.env "notes/cut.md" startup
                [("name", VStr "cut.md"); ("content", VStr "aGk")])
      as (text & w' & Hrun & _ & _ & Htext).
    + vm_compute; reflexivity.
    + vm_compute; reflexivity.
    + exists w'. vm_compute in Htext. subst text. exact Hrun.
  - destruct (fetch_note_content_of_object Demo.env "notes/five.md" startup
                [("name", VStr "five.md"); ("content", VNum "5")])
      as (text & w' & Hrun & _ & _ & Htext).
    + vm_compute; reflexivity.
    + vm_compute; reflexivity.
    + exists w'. vm_compute in Htext. subst text. exact Hrun.
Defined.

(** ** More of the script: the stored trees *)

Lemma list_folder_keeps_trees env path w :
  post (list_folder env path) w (fun _ w' => cache_build_tree w' = cache_build_tree w).
Proof.
  intros r w' Hrun. unfold list_folder, cache_data, list_folder_body in Hrun.
  unfold bind, requests_get, st_error, ret, lift, raise in Hrun. simpl in Hrun.
  repeat case_match; simplify_eq; done.
Qed.

Lemma build_tree_item_keeps_trees recurse tree item w :
  keeps_trees recurse ->
  post (build_tree_item recurse tree item) w
    (fun _ w' => cache_build_tree w ⊆ cache_build_tree w').
Proof.
  intros Hrec r w' Hrun. unfold build_tree_item, bind, lift, ret in Hrun.
  repeat (case_match; simplify_eq); try done;
    match goal with
    | H : recurse _ _ = Some _ |- _ => exact (Hrec _ _ _ _ H)
    end.
Qed.

Lemma for_each_keeps_trees recurse items :
  keeps_trees recurse ->
  forall tree w,
    post (for_each (build_tree_item recurse) items tree) w
      (fun _ w' => cache_build_tree w ⊆ cache_build_tree w').
Proof.
  intros Hrec. induction items as [|item items IH]; intros tree w; simpl.
  - by apply post_ret.
  - apply post_bind. eapply post_weaken; [by apply build_tree_item_keeps_trees|].
    intros [tree1|e] w1 H1; unfold through; [|done].
    eapply post_weaken; [apply IH|]. intros r w2 H2. by transitivity (cache_build_tree w1).
Qed.

Lemma build_tree_keeps_trees env fuel : keeps_trees (build_tree env fuel).
Proof.
  induction fuel as [|fuel IH]; intros path w; simpl.
  { apply post_out_of_fuel. }
  set (body := bind (list_folder env path) _).
  assert (Hbody : forall w0,
            post body w0 (fun _ w' => cache_build_tree w0 ⊆ cache_build_tree w')).
  { intros w0. unfold body. apply post_bind.
    eapply post_weaken; [apply list_folder_keeps_trees|].
    intros [contents|e] w1 H1; unfold through; [|by rewrite H1].
    apply post_bind, post_lift.
    destruct (py_iter contents) as [items|e]; unfold through; [|by rewrite H1].
    eapply post_weaken; [by apply for_each_keeps_trees|].
    intros r w2 H2. by rewrite <- H1. }
  destruct path as [| | |p| |]; try apply Hbody.
  apply post_cache_data; [done|]. intros Hmiss.
  eapply post_weaken; [apply Hbody|]. intros [t|e] w' H; [|done].
  simpl. by apply insert_subseteq_r.
Qed.

Lemma call_keeps_trees env w w' :
  call env w w' -> cache_build_tree w ⊆ cache_build_tree w'.
Proof.
  intros [p r Hrun|v r Hrun|fuel v r Hrun|p r Hrun].
  - unfold fetch_dataframe, cache_data, fetch_dataframe_body in Hrun.
    unfold bind, try_except, requests_get, st_error, ret, lift in Hrun. simpl in Hrun.
    repeat case_match; simplify_eq; done.
  - by rewrite (list_folder_keeps_trees env v w _ _ Hrun).
  - exact (build_tree_keeps_trees env fuel v w _ _ Hrun).
  - unfold fetch_note_content, cache_data, fetch_note_content_body in Hrun.
    unfold bind, try_except, requests_get, ret, lift in Hrun. simpl in Hrun.
    repeat case_match; simplify_eq; done.
Qed.

Lemma calls_keep_trees env w w' :
  rtc (call env) w w' -> cache_build_tree w ⊆ cache_build_tree w'.
Proof.
  induction 1 as [w|w w1 w2 Hc _ IH]; [done|].
  transitivity (cache_build_tree w1); [by eapply call_keeps_trees|done].
Qed.

(** X5. [build_tree] and [fetch_note_content] are memoized like the fetch
    functions: once one of them has returned for an argument, every later
    call with that argument returns the same tree, respectively the same
    text, and leaves the world as it is, so it sends no request: the tree
    and the notes shown are those of the first visit. *)
Theorem tree_and_notes_are_memoized env w :
  reachable env w ->
  (forall fuel path t w1 w2 fuel',
     build_tree env fuel path w = Some (Return t, w1) ->
     rtc (call env) w1 w2 ->
     build_tree env (S fuel') path w2 = Some (Return t, w2))
  /\ (forall file_path text w1 w2,
        fetch_note_content env file_path w = Some (Return text, w1) ->
        rtc (call env) w1 w2 ->
        fetch_note_content env file_path w2 = Some (Return text, w2)).
Proof.
  intros Hreach. pose proof (reachable_wf _ _ Hreach) as Hwf. split.
  - intros fuel path t w1 w2 fuel' Hrun Hcalls.
    destruct (build_tree_kept env fuel path w Hwf _ _ Hrun) as (_ & _ & p & -> & Hstored).
    simpl. by rewrite (lookup_weaken _ _ _ _ Hstored (calls_keep_trees _ _ _ Hcalls)).
  - intros p text w1 w2 Hrun Hcalls.
    destruct (fetch_note_content_kept env p w Hwf _ _ Hrun) as (Hwf1 & _ & Hstored).
    destruct (calls_kept env _ _ Hwf1 Hcalls) as [_ Hg].
    unfold fetch_note_content. simpl.
    by rewrite (lookup_weaken _ _ _ _ Hstored (grows_fetch_note_content _ _ Hg)).
Qed.

Lemma tree_and_notes_are_memoized_witness :
  build_tree Demo.env 1 (VStr "notes") Demo.built_world
  = Some (Return Demo.built_tree, Demo.built_world).
Proof.
  refine (proj1 (tree_and_notes_are_memoized Demo.env startup _)
            3 (VStr "notes") Demo.built_tree Demo.built_world Demo.built_world 0 _ _).
  - apply rtc_refl.
  - vm_compute; reflexivity.
  - apply rtc_refl.
Defined.

(** X6. A folder whose listing cannot be fetched shows as empty: when the
    request for the listing of [p] gets a status other than 200,
    [build_tree] does not raise but returns the empty tree, with the one
    error of [list_folder] shown and one request sent, and stores the empty
    tree for [p]. *)
Theorem build_tree_of_failed_listing env fuel p w (status : Z) :
  cache_build_tree w !! p = None ->
  cache_list_folder w !! p = None ->
  status_code (github env (requests w) (api_url env (quote env p)) (HEADERS env)) = status ->
  status <> 200%Z ->
  exists w',
    build_tree env (S fuel) (VStr p) w = Some (Return [], w')
    /\ errors w' = ("Failed to fetch " +:+ p +:+ ": " +:+ pretty status) :: errors w
    /\ requests w' = api_url env (quote env p) :: requests w
    /\ cache_build_tree w' !! p = Some [].
Proof.
  intros Hbt Hls Hst Hne.
  assert (Hneq : negb (status =? 200)%Z = true).
  { apply negb_true_iff, Z.eqb_neq, Hne. }
  simpl. rewrite Hbt. unfold bind, list_folder. simpl. rewrite Hls.
  unfold bind, requests_get, st_error, ret. simpl. rewrite Hst, Hneq. simpl.
  eexists. split; [reflexivity|]. simpl. split; [done|]. split; [done|].
  apply lookup_insert_eq.
Qed.

Lemma build_tree_of_failed_listing_witness :
  exists w',
    build_tree Demo.env 1 (VStr "nowhere") startup = Some (Return [], w')
    /\ errors w' = ["Failed to fetch nowhere: 404"]
    /\ requests w' = [api_url Demo.env "nowhere"]
    /\ cache_build_tree w' !! "nowhere" = Some [].
Proof.
  apply (build_tree_of_failed_listing Demo.env 0 "nowhere" startup 404).
  - vm_compute; reflexivity.
  - vm_compute; reflexivity.
  - vm_compute; reflexivity.
  - lia.
Defined.

(** X7. [build_tree] on the path of a file raises: the answer is then one
    JSON object, [list_folder] returns and stores it as it is, the loop
    walks over its keys and line 151 indexes a string with ["name"].  No
    tree is stored. *)
Theorem build_tree_of_file_raises env fuel p w key x rest :
  cache_build_tree w !! p = None ->
  cache_list_folder w !! p = None ->
  github env (requests w) (api_url env (quote env p)) (HEADERS env)
  = {| status_code := 200; json := Return (VDict ((key, x) :: rest)) |} ->
  exists msg w',
    build_tree env (S fuel) (VStr p) w = Some (Raised (Exn TypeError msg), w')
    /\ cache_build_tree w' !! p = None
    /\ cache_list_folder w' !! p = Some (VDict ((key, x) :: rest)).
Proof.
  intros Hbt Hls Hget.
  simpl. rewrite Hbt. unfold bind, list_folder. simpl. rewrite Hls.
  unfold bind, requests_get, lift. simpl. rewrite Hget. simpl.
  eexists _, _. split; [reflexivity|]. simpl. split; [done|]. apply lookup_insert_eq.
Qed.

Lemma build_tree_of_file_raises_witness :
  exists msg w',
    build_tree Demo.env 1 (VStr "notes/a.md") startup
    = Some (Raised (Exn TypeError msg), w')
    /\ cache_build_tree w' !! "notes/a.md" = None
    /\ cache_list_folder w' !! "notes/a.md"
       = Some (VDict [("name", VStr "a.md"); ("content", VStr "aGk=")]).
Proof.
  apply (build_tree_of_file_raises Demo.env 0 "notes/a.md" startup).
  - vm_compute; reflexivity.
  - vm_compute; reflexivity.
  - vm_compute; reflexivity.
Defined.

(** The ids and names of nodes, and the paths and names of entries. *)
Lemma tree_of_sublist m items t :
  tree_of m items t ->
  map (fun n => (field "id" n, field "name" n)) t
  `sublist_of` map (fun i => (field "path" i, field "name" i)) items.
Proof.
  induction 1 as [|item name items t En Eo _ IH
                  |item name p type contents sub ch items t En Eo Ep Et Ed Hp Hit _ _ _ IH
                  |item name ip type items t En Eo Ep Et Ed Ef Emd _ IH
                  |item name ip type items t En Eo Ep Et Ed Hor _ IH]; simpl.
  - done.
  - by apply sublist_cons.
  - rewrite (py_getitem_field _ _ _ En), (py_getitem_field _ _ _ Ep). by apply sublist_skip.
  - rewrite (py_getitem_field _ _ _ En), (py_getitem_field _ _ _ Ep). by apply sublist_skip.
  - by apply sublist_cons.
Qed.

(** X8. Whatever the API answers, the nodes [build_tree] returns for a
    folder follow its listing: their ids and names are, in the same order,
    the paths and names of some of the entries of the listing stored for the
    folder.  This holds for the root and for the children of every Folder
    node at any depth. *)
Theorem build_tree_follows_listings env fuel path w t w' :
  reachable env w ->
  build_tree env fuel path w = Some (Return t, w') ->
  (exists p contents items,
     path = VStr p
     /\ cache_list_folder w' !! p = Some contents
     /\ py_iter contents = Return items
     /\ map (fun n => (field "id" n, field "name" n)) t
        `sublist_of` map (fun i => (field "path" i, field "name" i)) items)
  /\ (forall n children,
        node_in n t -> field "children" n = Some (VList children) ->
        exists q contents items,
          field "id" n = Some (VStr q)
          /\ cache_list_folder w' !! q = Some contents
          /\ py_iter contents = Return items
          /\ map (fun n => (field "id" n, field "name" n)) children
             `sublist_of` map (fun i => (field "path" i, field "name" i)) items).
Proof.
  intros Hreach Hrun.
  destruct (build_tree_returns_tree_for _ _ _ _ _ _ Hreach Hrun) as (_ & p & -> & Hfor).
  split.
  - destruct Hfor as (contents & items & Hp & Hit & Ht).
    exists p, contents, items. do 3 (split; [done|]). by apply (tree_of_sublist _ _ _ Ht).
  - intros n children Hn Hch.
    destruct (tree_for_nodes _ _ _ _ Hfor Hn) as (item & _ & Hb).
    destruct Hb as [name q type ch _ _ _ _ _ Hsub ->|name ip type _ _ _ _ _ _ ->];
      [|discriminate].
    simpl in Hch. injection Hch as <-.
    destruct Hsub as (contents & items & Hq & Hit & Ht).
    exists q, contents, items. do 3 (split; [done|]). by apply (tree_of_sublist _ _ _ Ht).
Qed.

Lemma build_tree_follows_listings_witness :
  exists p contents items,
    VStr "notes" = VStr p
    /\ cache_list_folder Demo.built_world !! p = Some contents
    /\ py_iter contents = Return items
    /\ map (fun n => (field "id" n, field "name" n)) Demo.built_tree
       `sublist_of` map (fun i => (field "path" i, field "name" i)) items.
Proof.
  apply (build_tree_follows_listings Demo.env 3 (VStr "notes") startup
           Demo.built_tree Demo.built_world).
  - apply rtc_refl.
  - vm_compute; reflexivity.
Defined.

(** X9. Folders come from directories and Notes from files: every node of
    the returned tree with a [children] field was made from a listed entry
    whose type is ["dir"], every node with a [path] field from a listed entry
    whose type is ["file"], and every node has one of the two fields.  An
    entry of any other type gets no node. *)
Theorem build_tree_node_kinds env fuel path w t w' :
  reachable env w ->
  build_tree env fuel path w = Some (Return t, w') ->
  forall n,
    node_in n t ->
    exists item,
      listed (cache_list_folder w') item
      /\ field "path" item = field "id" n
      /\ ((field "children" n <> None /\ field "path" n = None
           /\ field "type" item = Some (VStr "dir"))
          \/ (field "children" n = None /\ field "path" n = field "id" n
              /\ field "type" item = Some (VStr "file"))).
Proof.
  intros Hreach Hrun n Hn.
  destruct (build_tree_returns_tree_for _ _ _ _ _ _ Hreach Hrun) as (_ & p & -> & Hfor).
  destruct (tree_for_nodes _ _ _ _ Hfor Hn) as (item & Hl & Hb).
  exists item. split; [done|].
  destruct Hb as [name q type ch _ _ Ep Et Ed _ ->|name ip type _ _ Ep Et Ef _ ->].
  - split; [by rewrite (py_getitem_field _ _ _ Ep)|]. left.
    split; [done|]. split; [done|].
    rewrite (py_getitem_field _ _ _ Et). destruct type; try discriminate.
    simpl in Ed. by apply String.eqb_eq in Ed as ->.
  - split; [by rewrite (py_getitem_field _ _ _ Ep)|]. right.
    split; [done|]. split; [done|].
    rewrite (py_getitem_field _ _ _ Et). destruct type; try discriminate.
    simpl in Ef. by apply String.eqb_eq in Ef as ->.
Qed.

Lemma build_tree_node_kinds_witness :
  exists item,
    listed (cache_list_folder Demo.built_world) item
    /\ field "path" item = Some (VStr "notes/empty")
    /\ field "type" item = Some (VStr "dir").
Proof.
  destruct (build_tree_node_kinds Demo.env 3 (VStr "notes") startup
              Demo.built_tree Demo.built_world)
    with (n := folder_node (VStr "notes/empty") (VStr "empty") [])
    as (item & Hl & Hp & [(_ & _ & Ht)|(Hc & _)]).
  - apply rtc_refl.
  - vm_compute; reflexivity.
  - apply node_here. vm_compute. right. left. reflexivity.
  - exists item. split; [exact Hl|]. split; [exact Hp|exact Ht].
  - discriminate.
Defined.

(** ** More of the script: the deadline bars *)

(** X10. The value given to [st.progress] is always between 0 and 1, the
    range the widget accepts, and a deadline further away never has the
    fuller bar. *)
Theorem progress_value_bounded_and_decreasing (d1 d2 : Z) :
  (d1 <= d2)%Z ->
  (0 <= progress_value d2)%Q
  /\ (progress_value d2 <= progress_value d1)%Q
  /\ (progress_value d1 <= 1)%Q.
Proof.
  intros Hle. unfold progress_value. rewrite !Z.gtb_ltb.
  destruct (Z.leb_spec d1 0), (Z.leb_spec d2 0), (Z.ltb_spec 30 d1), (Z.ltb_spec 30 d2);
    try lia;
    unfold Qle, Qdiv, Qmult, Qinv, inject_Z; simpl; lia.
Qed.

Lemma progress_value_bounded_and_decreasing_witness :
  (0 <= progress_value 10)%Q
  /\ (progress_value 10 <= progress_value 3)%Q
  /\ (progress_value 3 <= 1)%Q.
Proof. apply (progress_value_bounded_and_decreasing 3 10). lia. Defined.

(** X11. The bar is full exactly when the deadline is today or past, and
    empty exactly when it is thirty days away or more; from one to thirty
    days the bar shows the thirtieths already gone.  For a deadline that is
    past the text says ["0 days left"], never a negative number. *)
Theorem progress_value_ends (d : Z) :
  ((progress_value d == 1)%Q <-> (d <= 0)%Z)
  /\ ((progress_value d == 0)%Q <-> (30 <= d)%Z)
  /\ ((0 < d <= 30)%Z -> (progress_value d == (30 - d) # 30)%Q)
  /\ ((d <= 0)%Z -> days_left_text d = "0 days left")
  /\ ((0 <= d)%Z -> days_left_text d = pretty d +:+ " days left").
Proof.
  unfold progress_value, days_left_text. rewrite Z.gtb_ltb.
  split; [|split; [|split; [|split]]].
  - destruct (Z.leb_spec d 0), (Z.ltb_spec 30 d); try lia;
      unfold Qeq, Qdiv, Qmult, Qinv, inject_Z; simpl; lia.
  - destruct (Z.leb_spec d 0), (Z.ltb_spec 30 d); try lia;
      unfold Qeq, Qdiv, Qmult, Qinv, inject_Z; simpl; lia.
  - intros Hd. destruct (Z.leb_spec d 0), (Z.ltb_spec 30 d); try lia.
    unfold Qeq, Qdiv, Qmult, Qinv, inject_Z; simpl; lia.
  - intros Hd. by rewrite Z.max_l.
  - intros Hd. by rewrite Z.max_r.
Qed.

Lemma progress_value_ends_witness :
  (progress_value 12 == 18 # 30)%Q
  /\ days_left_text (-4) = "0 days left"
  /\ days_left_text 12 = "12 days left".
Proof.
  destruct (progress_value_ends 12) as (_ & _ & Hmid & _ & Hpos).
  destruct (progress_value_ends (-4)) as (_ & _ & _ & Hneg & _).
  split; [apply Hmid; lia|]. split; [apply Hneg; lia|]. apply Hpos; lia.
Defined.

(** ** More of the script: the notes explorer *)

(** X12. With nothing selected ([tree_view] hands back [None], an empty
    dict or any other value that tests false) the page shows the hint of
    line 198 and does nothing beyond building the tree: no note is fetched,
    nothing is raised. *)
Theorem notes_page_without_selection env number_is_true fuel root tree_view w t w1 :
  build_tree env fuel (VStr root) w = Some (Return t, w1) ->
  py_truthy number_is_true (tree_view t) = false ->
  notes_page env number_is_true fuel root tree_view w
  = Some (Return (PanelInfo "Select a note from the tree to view its content."), w1).
Proof.
  intros Hrun Hsel. unfold notes_page, bind. rewrite Hrun.
  unfold selected_path, note_panel. rewrite Hsel. reflexivity.
Qed.

Lemma notes_page_without_selection_witness :
  notes_page Demo.env Demo2.number_is_true 3 "notes" Demo2.pick_none startup
  = Some (Return (PanelInfo "Select a note from the tree to view its content."),
          Demo.built_world).
Proof.
  apply (notes_page_without_selection Demo.env Demo2.number_is_true 3 "notes"
           Demo2.pick_none startup Demo.built_tree Demo.built_world).
  - vm_compute; reflexivity.
  - reflexivity.
Defined.

(** X13. Selecting a folder breaks the page: when [tree_view] hands back a
    Folder node of the tree just built, line 194 looks up a [path] the node
    does not have and the page ends in [KeyError: 'path'], with no note
    fetched. *)
Theorem notes_page_with_folder_selected env number_is_true fuel root tree_view w t w1 :
  reachable env w ->
  build_tree env fuel (VStr root) w = Some (Return t, w1) ->
  node_in (tree_view t) t ->
  field "children" (tree_view t) <> None ->
  notes_page env number_is_true fuel root tree_view w
  = Some (Raised (Exn KeyError "'path'"), w1).
Proof.
  intros Hreach Hrun Hn Hch.
  destruct (build_tree_returns_tree_for _ _ _ _ _ _ Hreach Hrun) as (_ & p & _ & Hfor).
  destruct (tree_for_nodes _ _ _ _ Hfor Hn) as (item & _ & Hb).
  unfold notes_page, bind. rewrite Hrun.
  destruct Hb as [name q type ch _ _ _ _ _ _ Heq|name ip type _ _ _ _ _ _ Heq];
    rewrite Heq in *; [reflexivity|]. by destruct Hch.
Qed.

Lemma notes_page_with_folder_selected_witness :
  notes_page Demo.env Demo2.number_is_true 3 "notes" (Demo2.pick 1) startup
  = Some (Raised (Exn KeyError "'path'"), Demo.built_world).
Proof.
  apply (notes_page_with_folder_selected Demo.env Demo2.number_is_true 3 "notes"
           (Demo2.pick 1) startup Demo.built_tree Demo.built_world).
  - apply rtc_refl.
  - vm_compute; reflexivity.
  - apply node_here. vm_compute. right. left. reflexivity.
  - vm_compute. discriminate.
Defined.

(** X14. A selection with a [path] and without a [selected] field shows the
    note at that path: the page ends as [fetch_note_content] does for it,
    with the text as heading and as body.  The path is not tested for the
    [.md] ending; the test of lines 186-190 goes into a variable the page
    never reads. *)
Theorem notes_page_with_path_selected env number_is_true fuel root tree_view
    w t w1 fields p r w2 :
  build_tree env fuel (VStr root) w = Some (Return t, w1) ->
  tree_view t = VDict fields ->
  dict_get "path" fields = Some (VStr p) ->
  dict_get "selected" fields = None ->
  fetch_note_content env p w1 = Some (r, w2) ->
  notes_page env number_is_true fuel root tree_view w
  = Some (match r with
          | Return text => Return (PanelNote text text)
          | Raised e => Raised e
          end, w2).
Proof.
  intros Hrun Hsel Hpath Hnone Hnote. unfold notes_page, bind. rewrite Hrun, Hsel.
  destruct fields as [|kv fields']; [discriminate|].
  unfold selected_path, note_panel, bind, lift, ret, py_get, py_getitem. simpl py_truthy.
  cbv iota. rewrite Hnone, Hpath. simpl. rewrite Hnote. by destruct r.
Qed.

Lemma notes_page_with_path_selected_witness :
  exists w2,
    notes_page Demo.env Demo2.number_is_true 3 "notes" (Demo2.pick 3) startup
    = Some (Return (PanelNote "hi" "hi"), w2).
Proof.
  eexists.
  refine (notes_page_with_path_selected Demo.env Demo2.number_is_true 3 "notes"
            (Demo2.pick 3) startup Demo.built_tree Demo.built_world
            [("id", VStr "notes/a.md"); ("name", VStr "a.md"); ("path", VStr "notes/a.md")]
            "notes/a.md" (Return "hi") _ _ _ _ _ _).
  - vm_compute; reflexivity.
  - vm_compute; reflexivity.
  - reflexivity.
  - reflexivity.
  - vm_compute; reflexivity.
Defined.

(** X15. The four tables of lines 51-54 are fetched once: after a run of
    these lines that got all four, every later run, whatever was called in
    between, returns the same four tables and sends no request. *)
Theorem load_dataframes_is_memoized env w tables w1 w2 :
  reachable env w ->
  load_dataframes env w = Some (Return tables, w1) ->
  rtc (call env) w1 w2 ->
  load_dataframes env w2 = Some (Return tables, w2).
Proof.
  intros Hreach Hrun Hcalls. pose proof (reachable_wf _ _ Hreach) as Hwf.
  unfold load_dataframes, bind, ret in Hrun.
  destruct (fetch_dataframe env "data/anime.csv" w) as [[[a|?] wa]|] eqn:Ea;
    try discriminate.
  destruct (fetch_dataframe env "data/procrastination.csv" wa) as [[[b|?] wb]|] eqn:Eb;
    try discriminate.
  destruct (fetch_dataframe env "data/youtube.csv" wb) as [[[c|?] wc]|] eqn:Ec;
    try discriminate.
  destruct (fetch_dataframe env "data/deadlines.csv" wc) as [[[d|?] wd]|] eqn:Ed;
    try discriminate.
  injection Hrun as <- <-.
  destruct (fetch_dataframe_kept env _ w Hwf _ _ Ea) as (Hwfa & _ & Ha).
  destruct (fetch_dataframe_kept env _ wa Hwfa _ _ Eb) as (Hwfb & Hgb & Hb).
  destruct (fetch_dataframe_kept env _ wb Hwfb _ _ Ec) as (Hwfc & Hgc & Hc).
  destruct (fetch_dataframe_kept env _ wc Hwfc _ _ Ed) as (Hwfd & Hgd & Hd).
  destruct (calls_kept env _ _ Hwfd Hcalls) as [_ Hg].
  assert (Hsub : forall x, grows x wd -> cache_fetch_dataframe x ⊆ cache_fetch_dataframe w2).
  { intros x Hx. transitivity (cache_fetch_dataframe wd);
      [apply grows_fetch_dataframe, Hx|apply grows_fetch_dataframe, Hg]. }
  unfold load_dataframes, bind, ret, fetch_dataframe. simpl.
  rewrite (lookup_weaken _ _ _ _ Ha
             (Hsub wa (grows_trans _ _ _ (grows_trans _ _ _ Hgb Hgc) Hgd))).
  rewrite (lookup_weaken _ _ _ _ Hb (Hsub wb (grows_trans _ _ _ Hgc Hgd))).
  rewrite (lookup_weaken _ _ _ _ Hc (Hsub wc Hgd)).
  by rewrite (lookup_weaken _ _ _ _ Hd (Hsub wd (grows_refl _))).
Qed.

Lemma load_dataframes_is_memoized_witness :
  exists tables w1,
    load_dataframes Demo2.env startup = Some (Return tables, w1)
    /\ length (requests w1) = 4
    /\ load_dataframes Demo2.env w1 = Some (Return tables, w1).
Proof.
  eexists _, _. split; [vm_compute; reflexivity|]. split; [reflexivity|].
  refine (load_dataframes_is_memoized Demo2.env startup _ _ _ _ _ _).
  - apply rtc_refl.
  - vm_compute; reflexivity.
  - apply rtc_refl.
Defined.

(** ** More of the script: a folder that lists itself *)

Lemma post_and {A} (m : M A) w (Q1 Q2 : result A -> World -> Prop) :
  post m w Q1 -> post m w Q2 -> post m w (fun r w' => Q1 r w' /\ Q2 r w').
Proof. intros H1 H2 r w' Hrun. split; [exact (H1 _ _ Hrun)|exact (H2 _ _ Hrun)]. Qed.

Section SelfListing.

Variable env : Env.
Variable p : string.
Variable items : list value.
Variables item name type : value.

Hypothesis Hserved :
  forall history,
    github env history (api_url env (quote env p)) (HEADERS env)
    = {| status_code := 200; json := Return (VList items) |}.
Hypothesis Hin : In item items.
Hypothesis Hname : py_getitem item "name" = Return name.
Hypothesis Hshown : py_eq_str name ".obsidian" = false.
Hypothesis Hpath : py_getitem item "path" = Return (VStr p).
Hypothesis Htype : py_getitem item "type" = Return type.
Hypothesis Hdir : py_eq_str type "dir" = true.

Lemma self_listing_item recurse tree x w :
  (forall path w0,
     wf env w0 -> cache_build_tree w0 !! p = None ->
     post (recurse path) w0
       (fun r w' =>
          wf env w' /\ cache_build_tree w' !! p = None
          /\ (path = VStr p -> forall t, r <> Return t))) ->
  wf env w -> cache_build_tree w !! p = None ->
  post (build_tree_item recurse tree x) w
    (fun r w' =>
       wf env w' /\ cache_build_tree w' !! p = None
       /\ (x = item -> forall t, r <> Return t)).
Proof.
  intros Hrec Hwf Hnone r w' Hrun. unfold build_tree_item, bind, lift, ret in Hrun.
  destruct (py_getitem x "name") as [xname|e] eqn:En; [|by simplify_eq].
  destruct (py_eq_str xname ".obsidian") eqn:Eo.
  { simplify_eq. do 2 (split; [done|]). intros ->. congruence. }
  destruct (py_getitem x "path") as [xpath|e] eqn:Ep; [|by simplify_eq].
  destruct (py_getitem x "type") as [xtype|e] eqn:Et; [|by simplify_eq].
  destruct (py_eq_str xtype "dir") eqn:Ed.
  - destruct (recurse xpath w) as [[[children|e] w1]|] eqn:Er; [| |done].
    + destruct (Hrec xpath w Hwf Hnone _ _ Er) as (Hwf1 & Hnone1 & Hnot).
      simplify_eq. do 2 (split; [done|]). intros ->.
      rewrite Hpath in Ep. injection Ep as <-. by destruct (Hnot eq_refl children).
    + destruct (Hrec xpath w Hwf Hnone _ _ Er) as (Hwf1 & Hnone1 & _). by simplify_eq.
  - assert (x <> item) by (intros ->; congruence).
    repeat (case_match; simplify_eq); done.
Qed.

Lemma self_listing_loop recurse xs :
  (forall path w0,
     wf env w0 -> cache_build_tree w0 !! p = None ->
     post (recurse path) w0
       (fun r w' =>
          wf env w' /\ cache_build_tree w' !! p = None
          /\ (path = VStr p -> forall t, r <> Return t))) ->
  forall tree w,
    wf env w -> cache_build_tree w !! p = None ->
    post (for_each (build_tree_item recurse) xs tree) w
      (fun r w' =>
         wf env w' /\ cache_build_tree w' !! p = None
         /\ (In item xs -> forall t, r <> Return t)).
Proof.
  intros Hrec. induction xs as [|x xs IH]; intros tree w Hwf Hnone; simpl.
  - apply post_ret. do 2 (split; [done|]). intros [].
  - apply post_bind. eapply post_weaken; [by apply self_listing_item|].
    intros [tree1|e] w1 (Hwf1 & Hnone1 & Hnot); unfold through.
    + eapply post_weaken; [by apply IH|].
      intros r w2 (Hwf2 & Hnone2 & Hrest). do 2 (split; [done|]).
      intros [->|Hxs]; [by destruct (Hnot eq_refl tree1)|by apply Hrest].
    + done.
Qed.

Lemma self_listing_build_tree fuel path w :
  wf env w -> cache_build_tree w !! p = None ->
  post (build_tree env fuel path) w
    (fun r w' =>
       wf env w' /\ cache_build_tree w' !! p = None
       /\ (path = VStr p -> forall t, r <> Return t)).
Proof.
  revert path w. induction fuel as [|fuel IH]; intros path w Hwf Hnone.
  { apply post_out_of_fuel. }
  eapply post_weaken.
  { apply post_and; [exact (build_tree_kept env (S fuel) path w Hwf)|].
    instantiate (1 := fun r w' =>
      cache_build_tree w' !! p = None /\ (path = VStr p -> forall t, r <> Return t)).
    simpl.
    set (body := bind (list_folder env path) _).
    assert (Hbody : post body w (fun r w' =>
              cache_build_tree w' !! p = None
              /\ (path = VStr p -> forall t, r <> Return t))).
    { unfold body. apply post_bind.
      eapply post_weaken;
        [exact (post_and _ _ _ _ (list_folder_kept env path w Hwf)
                  (list_folder_keeps_trees env path w))|].
      intros [contents|e] w1 [(Hwf1 & _ & Hst) Hsame]; unfold through;
        [|by rewrite Hsame].
      destruct Hst as (q & -> & Hc).
      apply post_bind, post_lift.
      destruct (py_iter contents) as [xs|e] eqn:Eit; unfold through;
        [|by rewrite Hsame].
      eapply post_weaken; [apply (self_listing_loop _ xs IH); by rewrite ?Hsame|].
      intros r w2 (_ & Hnone2 & Hnot). split; [done|].
      intros [= ->]. apply Hnot.
      destruct (wf_listing _ _ Hwf1 _ _ Hc) as [history Hl].
      rewrite Hserved in Hl. unfold listing_of in Hl. simpl in Hl.
      injection Hl as <-. simpl in Eit. by injection Eit as <-. }
    destruct path as [| | |q| |]; try exact Hbody.
    apply post_cache_data.
    - intros t Ht. split; [done|]. intros [= ->]. congruence.
    - intros Hmiss. eapply post_weaken; [exact Hbody|].
      intros [t|e] w' [Hnone' Hnot]; [|done]. simpl.
      destruct (decide (q = p)) as [->|Hne].
      + by destruct (Hnot eq_refl t).
      + split; [by rewrite lookup_insert_ne|]. intros [= ->]. done. }
  intros r w' [(Hwf' & _) [Hnone' Hnot]]. done.
Qed.

End SelfListing.

(** X16. [build_tree] has no guard against a folder that lists itself.
    When the listing the API serves for [p] has an entry of type ["dir"],
    not named [.obsidian], whose path is [p] again, no call of
    [build_tree] for [p] returns a tree, however deep the recursion may
    go. *)
Theorem build_tree_of_self_listing env p items item name type fuel w :
  (forall history,
     github env history (api_url env (quote env p)) (HEADERS env)
     = {| status_code := 200; json := Return (VList items) |}) ->
  In item items ->
  py_getitem item "name" = Return name ->
  py_eq_str name ".obsidian" = false ->
  py_getitem item "path" = Return (VStr p) ->
  py_getitem item "type" = Return type ->
  py_eq_str type "dir" = true ->
  reachable env w ->
  cache_build_tree w !! p = None ->
  forall t w', build_tree env fuel (VStr p) w <> Some (Return t, w').
Proof.
  intros Hserved Hin Hname Hshown Hpath Htype Hdir Hreach Hnone t w' Hrun.
  pose proof (reachable_wf _ _ Hreach) as Hwf.
  destruct (self_listing_build_tree env p items item name type
              Hserved Hin Hname Hshown Hpath Htype Hdir fuel (VStr p) w Hwf Hnone _ _ Hrun)
    as (_ & _ & Hnot).
  by destruct (Hnot eq_refl t).
Qed.

Lemma build_tree_of_self_listing_witness :
  build_tree Demo2.env 5 (VStr "loop") startup = None.
Proof.
  destruct (build_tree Demo2.env 5 (VStr "loop") startup) as [[[t|e] w']|] eqn:Hrun.
  - exfalso.
    apply (build_tree_of_self_listing Demo2.env "loop"
             [VDict [("name", VStr "again"); ("path", VStr "loop"); ("type", VStr "dir")]]
             (VDict [("name", VStr "again"); ("path", VStr "loop"); ("type", VStr "dir")])
             (VStr "again") (VStr "dir") 5 startup) with (t := t) (w' := w').
    + intros history. vm_compute; reflexivity.
    + left; reflexivity.
    + reflexivity.
    + reflexivity.
    + reflexivity.
    + reflexivity.
    + reflexivity.
    + apply rtc_refl.
    + vm_compute; reflexivity.
    + exact Hrun.
  - vm_compute in Hrun. discriminate.
  - reflexivity.
Defined.
